(** * MapBox: the CSV to GeoJSON converter [scripts/build_mapbox_geojson.py]

    A shallow embedding of the script and the properties of its
    specification.

    Conventions of the embedding.
    - A Python [str] is a [string]; each [ascii] is read as the code point of
      the same number, so the strings covered are those over U+0000..U+00FF.
      In that range the only decimal digits are ['0'..'9'] and the white
      space of [str.strip] is U+0009..U+000D, U+001C..U+0020, U+0085, U+00A0.
    - A Python [float] is a [spec_float] of binary64 ([prec = 53],
      [emax = 1024]); [float(s)] rounds the decimal it reads to the nearest
      binary64, ties to even.
    - A Python [int] is a [Z].
    - A [dict] is an association list in insertion order with unique keys.
    - [None] is a constructor of its own in every type that can hold it.
    - The working directory gives, for a file name, the records that
      [csv.reader] yields for the file of that name, if there is one. Errors
      of the file system and of the decoding are not part of the embedding,
      and neither is the text that [json.dump] writes for the document. *)

From Stdlib Require Import ZArith List Bool Lia Sorted Permutation.
From Stdlib Require Import Ascii String DecimalString DecimalPos.
From Stdlib Require Import QArith.
From Stdlib Require Import SpecFloat.
Import ListNotations.

Local Open Scope string_scope.
Local Open Scope Z_scope.

(** ** Python strings *)

Module PyStr.

Definition code (c : ascii) : N := N_of_ascii c.

Definition in_range (lo hi : N) (c : ascii) : bool :=
  (lo <=? code c)%N && (code c <=? hi)%N.

(** [str.isspace] on one character: what [str.strip()] removes. *)
Definition isspace (c : ascii) : bool :=
  in_range 9 13 c || in_range 28 32 c
  || (code c =? 133)%N || (code c =? 160)%N.

Fixpoint lstrip (p : ascii -> bool) (s : string) : string :=
  match s with
  | EmptyString => EmptyString
  | String c s' => if p c then lstrip p s' else s
  end.

Fixpoint rstrip (p : ascii -> bool) (s : string) : string :=
  match s with
  | EmptyString => EmptyString
  | String c s' =>
      match rstrip p s' with
      | EmptyString => if p c then EmptyString else String c EmptyString
      | r => String c r
      end
  end.

Definition strip_with (p : ascii -> bool) (s : string) : string :=
  rstrip p (lstrip p s).

(** [s.strip()] *)
Definition strip (s : string) : string := strip_with isspace s.

(** [s.replace(old, new)] for a pattern [old] of one character. *)
Fixpoint replace (old : ascii) (new : string) (s : string) : string :=
  match s with
  | EmptyString => EmptyString
  | String c s' =>
      if Ascii.eqb c old then new ++ replace old new s'
      else String c (replace old new s')
  end.

(** Keep the characters that satisfy [p]. *)
Fixpoint filter (p : ascii -> bool) (s : string) : string :=
  match s with
  | EmptyString => EmptyString
  | String c s' => if p c then String c (filter p s') else filter p s'
  end.

Fixpoint contains (x : ascii) (s : string) : bool :=
  match s with
  | EmptyString => false
  | String c s' => Ascii.eqb c x || contains x s'
  end.

Definition is_empty (s : string) : bool :=
  match s with EmptyString => true | _ => false end.

(** Lower case of the letters [A] to [Z]. *)
Definition tolower (c : ascii) : ascii :=
  if in_range 65 90 c then ascii_of_N (code c + 32) else c.

Fixpoint lower (s : string) : string :=
  match s with
  | EmptyString => EmptyString
  | String c s' => String (tolower c) (lower s')
  end.

(** [str(i)] for an int. *)
Definition of_int (z : Z) : string := NilZero.string_of_int (Z.to_int z).

Definition hex_digit (n : N) : ascii :=
  if (n <? 10)%N then ascii_of_N (48 + n) else ascii_of_N (87 + n).

(** The characters [repr] writes as they are (printable ones). *)
Definition isprintable (c : ascii) : bool :=
  in_range 32 126 c || (in_range 161 255 c && negb (code c =? 173)%N).

Definition repr_char (quote : ascii) (c : ascii) : string :=
  if Ascii.eqb c quote || Ascii.eqb c "\"%char then
    String "\"%char (String c EmptyString)
  else if (code c =? 9)%N then "\t"
  else if (code c =? 10)%N then "\n"
  else if (code c =? 13)%N then "\r"
  else if isprintable c then String c EmptyString
  else String "\"%char (String "x"%char
         (String (hex_digit (code c / 16)) (String (hex_digit (code c mod 16)) EmptyString))).

Fixpoint repr_body (quote : ascii) (s : string) : string :=
  match s with
  | EmptyString => EmptyString
  | String c s' => repr_char quote c ++ repr_body quote s'
  end.

Definition squote : ascii := "'"%char.
Definition dquote : ascii := ascii_of_N 34.

(** [repr(s)]: single quotes unless the text has a single quote and no
    double quote. *)
Definition repr (s : string) : string :=
  let quote := if contains squote s && negb (contains dquote s) then dquote else squote in
  String quote (repr_body quote s ++ String quote EmptyString).

Fixpoint join (sep : string) (l : list string) : string :=
  match l with
  | [] => EmptyString
  | [x] => x
  | x :: l' => x ++ sep ++ join sep l'
  end.

(** [repr] of a list of strings, which is also its [str]. *)
Definition repr_list (l : list string) : string :=
  "[" ++ join ", " (map repr l) ++ "]".

End PyStr.

(** ** Python floats: what [float(s)] reads and what [int(x)] keeps *)

Module PyFloat.

Definition prec : Z := 53.
Definition emax : Z := 1024.

Definition float := spec_float.

(** The nearest binary64 to [(-1)^sign * p / q], for [0 < p] and [0 < q]. *)
Definition of_ratio (sign : bool) (p q : Z) : float :=
  let '(mz, ez, lz) := SFdiv_core_binary prec emax p 0 q 0 in
  binary_round_aux prec emax sign mz ez lz.

(** The nearest binary64 to [(-1)^sign * d * 10^e], for [0 <= d]. *)
Definition of_decimal (sign : bool) (d e : Z) : float :=
  if d =? 0 then S754_zero sign
  else if 0 <=? e then of_ratio sign (d * 10 ^ e) 1
  else of_ratio sign d (10 ^ (- e)).

(** The exact value of a float, when it has one. *)
Definition to_Q (x : float) : option Q :=
  match x with
  | S754_zero _ => Some 0%Q
  | S754_finite s m e =>
      let v := if 0 <=? e then inject_Z (Zpos m * 2 ^ e)
               else (Zpos m # Z.to_pos (2 ^ (- e)))%Q in
      Some (if s then Qopp v else v)
  | _ => None
  end.

(** [int(x)]: truncation toward zero; an infinity or a NaN raises. *)
Definition trunc (x : float) : option Z :=
  match x with
  | S754_zero _ => Some 0
  | S754_finite s m e =>
      let a := if 0 <=? e then Zpos m * 2 ^ e else Zpos m / 2 ^ (- e) in
      Some (if s then - a else a)
  | S754_infinity _ | S754_nan => None
  end.

Import PyStr.

Definition isdigit (c : ascii) : bool := in_range 48 57 c.

(** C white space, which [float] itself removes at both ends. *)
Definition c_isspace (c : ascii) : bool :=
  in_range 9 13 c || (code c =? 32)%N.

(** Before parsing, [float] turns every non-ASCII space into a blank and
    cuts the text at the first other character above U+007E, leaving a
    question mark there. *)
Fixpoint to_ascii (s : string) : string :=
  match s with
  | EmptyString => EmptyString
  | String c s' =>
      if (code c <? 127)%N then String c (to_ascii s')
      else if isspace c then String " "%char (to_ascii s')
      else "?"
  end.

(** Underscores may only stand between two digits; [prev] is the
    character before [s]. The result is the text without them. *)
Fixpoint drop_underscores (prev : ascii) (s : string) : option string :=
  match s with
  | EmptyString => if Ascii.eqb prev "_"%char then None else Some EmptyString
  | String c s' =>
      if Ascii.eqb c "_"%char then
        if isdigit prev then drop_underscores c s' else None
      else if Ascii.eqb prev "_"%char && negb (isdigit c) then None
      else option_map (String c) (drop_underscores c s')
  end.

Definition split_sign (s : string) : bool * string :=
  match s with
  | String "-"%char s' => (true, s')
  | String "+"%char s' => (false, s')
  | _ => (false, s)
  end.

(** ["inf"], ["infinity"] and ["nan"], in any case, after the sign. *)
Definition parse_inf_or_nan (s : string) : option float :=
  let '(neg, r) := split_sign s in
  let l := lower r in
  if String.eqb l "inf" || String.eqb l "infinity" then Some (S754_infinity neg)
  else if String.eqb l "nan" then Some S754_nan
  else None.

(** Read a run of digits: the number read so far, how many digits were
    read, and the rest. *)
Fixpoint take_digits (acc : Z) (n : Z) (s : string) : Z * Z * string :=
  match s with
  | String c s' =>
      if isdigit c then take_digits (10 * acc + Z.of_N (code c - 48)) (n + 1) s'
      else (acc, n, s)
  | EmptyString => (acc, n, s)
  end.

(** The exponent part: empty, or [e]/[E], a sign and at least one digit,
    up to the end of the text. *)
Definition parse_exponent (s : string) : option Z :=
  match s with
  | EmptyString => Some 0
  | String c s' =>
      if Ascii.eqb c "e"%char || Ascii.eqb c "E"%char then
        let '(neg, r) := split_sign s' in
        match take_digits 0 0 r with
        | (v, n, EmptyString) =>
            if 0 <? n then Some (if neg then - v else v) else None
        | _ => None
        end
      else None
  end.

(** A decimal literal: sign, digits with an optional point (one digit at
    least), optional exponent. The result is the sign, the digits read as
    one number and the power of ten to give it. *)
Definition parse_decimal (s : string) : option (bool * Z * Z) :=
  let '(neg, r) := split_sign s in
  let '(i, ni, r1) := take_digits 0 0 r in
  let '(d, nf, r2) :=
    match r1 with
    | String "."%char r1' => take_digits i 0 r1'
    | _ => (i, 0, r1)
    end in
  if 0 <? ni + nf then
    match parse_exponent r2 with
    | Some e => Some (neg, d, e - nf)
    | None => None
    end
  else None.

Definition parse_number (s : string) : option float :=
  match parse_decimal s with
  | Some (neg, d, e) => Some (of_decimal neg d e)
  | None => parse_inf_or_nan s
  end.

(** [float(s)] for a [str]; [None] stands for [ValueError]. *)
Definition of_string (s : string) : option float :=
  let t := strip_with c_isspace (to_ascii s) in
  if is_empty t then None
  else if contains "_"%char t then
    match drop_underscores "000"%char t with
    | Some u => parse_number u
    | None => None
    end
  else parse_number t.

End PyFloat.

(** ** Python dicts: association lists in insertion order *)

Module PyDict.
Section Dict.

Context {K V : Type}.
Variable eqb : K -> K -> bool.

Definition dict := list (K * V).

(** [d.get(k)], with [None] for a missing key left to the caller. *)
Fixpoint get (k : K) (d : dict) : option V :=
  match d with
  | [] => None
  | (k', v) :: d' => if eqb k k' then Some v else get k d'
  end.

(** [d[k] = v]: a key already there keeps its place. *)
Fixpoint set (k : K) (v : V) (d : dict) : dict :=
  match d with
  | [] => [(k, v)]
  | (k', v') :: d' => if eqb k k' then (k', v) :: d' else (k', v') :: set k v d'
  end.

Definition keys (d : dict) : list K := map fst d.

End Dict.
End PyDict.

(** ** The values of the script *)

(** A key of a row or of a property mapping: a column name, or [None], the
    key under which [csv.DictReader] files the cells beyond the header. *)
Definition key := option string.

Definition key_eqb (a b : key) : bool :=
  match a, b with
  | Some x, Some y => String.eqb x y
  | None, None => true
  | _, _ => false
  end.

(** What a row holds under a key: [None] for a cell the line lacks, the text
    of a cell, or the list of the surplus cells. *)
Inductive cell :=
| CNone
| CStr (s : string)
| CList (l : list string).

Definition row := list (key * cell).

(** [row.get(k)] *)
Definition row_get (r : row) (k : string) : cell :=
  match PyDict.get key_eqb (Some k) r with
  | Some c => c
  | None => CNone
  end.

(** [str(val)] *)
Definition str (val : cell) : string :=
  match val with
  | CNone => "None"
  | CStr s => s
  | CList l => PyStr.repr_list l
  end.

(** [repr(val)] *)
Definition repr (val : cell) : string :=
  match val with
  | CNone => "None"
  | CStr s => PyStr.repr s
  | CList l => PyStr.repr_list l
  end.

(** Truth value of a cell, as [if], [or] and [not] take it. *)
Definition truthy (val : cell) : bool :=
  match val with
  | CNone => false
  | CStr s => negb (PyStr.is_empty s)
  | CList l => match l with [] => false | _ => true end
  end.

(** [a or b] *)
Definition py_or (a b : cell) : cell := if truthy a then a else b.

(** A coerced property value. *)
Inductive value :=
| VNone
| VStr (s : string)
| VInt (z : Z)
| VFloat (x : PyFloat.float).

Definition props := list (key * value).

Record geometry := {
  geometry_type : string;
  coordinates : list PyFloat.float
}.

Record feature := {
  feature_type : string;
  feature_geometry : geometry;
  properties : props
}.

Record geojson := {
  geojson_type : string;
  geojson_features : list feature
}.

(** ** [csv.DictReader] over the records of [csv.reader] *)

Module Csv.

(** [reader.fieldnames]: the first record, [None] for an empty file. *)
Definition fieldnames (records : list (list string)) : option (list string) :=
  match records with
  | [] => None
  | h :: _ => Some h
  end.

(** One row: header and cells paired; surplus cells under the key [None];
    missing cells as [None]. *)
Definition dict_row (names : list string) (r : list string) : row :=
  let d := fold_left (fun d kv => PyDict.set key_eqb (Some (fst kv)) (CStr (snd kv)) d)
                     (combine names r) [] in
  let lf := List.length names in
  let lr := List.length r in
  if (lf <? lr)%nat then PyDict.set key_eqb None (CList (skipn lf r)) d
  else if (lr <? lf)%nat then
    fold_left (fun d k => PyDict.set key_eqb (Some k) CNone d) (skipn lr names) d
  else d.

Definition is_blank (r : list string) : bool :=
  match r with [] => true | _ => false end.

(** The rows the reader yields: records without cells are passed over. *)
Definition rows (records : list (list string)) : list row :=
  match records with
  | [] => []
  | h :: rest => map (dict_row h) (filter (fun r => negb (is_blank r)) rest)
  end.

End Csv.

(** ** The script *)

Definition INPUT_CANDIDATES : list string :=
  ["master clinic mapbox file.csv";
   "master clinic mapbox file.cvs"].

Definition OUTPUT_FILE : string := "MapBox Dataset.geojson".

Definition HEADER_ALIASES (field : string) : list string :=
  if String.eqb field "latitude" then
    ["Latitude"; "Lat"; "LAT"; "lat"; "latitude"]
  else if String.eqb field "longitude" then
    ["Longitude"; "Longitutde"; "Long"; "Lng"; "LON"; "lon"; "lng"; "longitude"]
  else [].

(** The working directory: under a file name, the records [csv.reader]
    yields for that file, when it exists. *)
Definition directory := string -> option (list (list string)).

Definition path_exists (fs : directory) (name : string) : bool :=
  match fs name with Some _ => true | None => false end.

Fixpoint first_existing (fs : directory) (names : list string) : option string :=
  match names with
  | [] => None
  | name :: rest => if path_exists fs name then Some name else first_existing fs rest
  end.

Definition find_input_file (fs : directory) : option string :=
  first_existing fs INPUT_CANDIDATES.

Definition mem (a : string) (l : list string) : bool := existsb (String.eqb a) l.

Fixpoint pick_header (row_fieldnames : list string) (aliases : list string) : option string :=
  match aliases with
  | [] => None
  | a :: rest => if mem a row_fieldnames then Some a else pick_header row_fieldnames rest
  end.

Definition to_float (val : cell) : option PyFloat.float :=
  match val with
  | CNone => None
  | _ =>
      let s := PyStr.strip (str val) in
      if PyStr.is_empty s then None
      else
        let s := PyStr.replace "$" "" (PyStr.replace "," "" s) in
        PyFloat.of_string s
  end.

Definition to_int (val : cell) : option Z :=
  match val with
  | CNone => None
  | _ =>
      let s := PyStr.strip (str val) in
      if PyStr.is_empty s then None
      else
        let s := PyStr.replace "$" "" (PyStr.replace "," "" s) in
        match PyFloat.of_string s with
        | Some x => PyFloat.trunc x
        | None => None
        end
  end.

Definition numeric_int_cols : list string :=
  ["Event #"; "Expedition #"; "Year"; "ZipCode";
   "Total Volunteers"; "Total Patients";
   "Animals Served"; "Extractions"; "Fillings"; "Cleanings";
   "Glasses"; "Eye Exams"; "Medical Exams"; "Women's Health"].

Definition to_number_if_possible (k : key) (val : cell) : value :=
  match val with
  | CNone => VNone
  | _ =>
      let s := PyStr.strip (str val) in
      if PyStr.is_empty s then VNone
      else if key_eqb k (Some "Total Value of Care") then
        match to_float (CStr s) with
        | Some f => VFloat f
        | None => VStr s
        end
      else if existsb (key_eqb k) (map Some numeric_int_cols) then
        match to_int (CStr s) with
        | Some n => VInt n
        | None => VStr s
        end
      else VStr s
  end.

(** What the loop of [main] carries from row to row. *)
Record loop_state := {
  features : list feature;
  skipped : Z;
  printed : list string
}.

Definition skip_line (lat_key lon_key : string) (i : Z) (r : row) : string :=
  "SKIPPED row " ++ PyStr.of_int i ++ ": lat=" ++ repr (row_get r lat_key)
  ++ " lon=" ++ repr (row_get r lon_key)
  ++ " event=" ++ repr (row_get r "Event #")
  ++ " city=" ++ repr (row_get r "City").

(** [k in (lat_key, lon_key)] *)
Definition is_coordinate (lat_key lon_key : string) (k : key) : bool :=
  key_eqb k (Some lat_key) || key_eqb k (Some lon_key).

(** The body of the loop over the items of a row. *)
Definition add_column (lat_key lon_key : string) (p : props) (kv : key * cell) : props :=
  if is_coordinate lat_key lon_key (fst kv) then p
  else PyDict.set key_eqb (fst kv) (to_number_if_possible (fst kv) (snd kv)) p.

(** The properties of a row before the synthetic keys: every entry but the
    two coordinate columns, coerced. *)
Definition column_props (lat_key lon_key : string) (r : row) : props :=
  fold_left (add_column lat_key lon_key) r [].

Definition set_id (name : string) (id : cell) (p : props) : props :=
  if truthy id then PyDict.set key_eqb (Some name) (VStr (PyStr.strip (str id))) p
  else p.

Definition build_props (lat_key lon_key : string) (i : Z) (r : row) : props :=
  let p := column_props lat_key lon_key r in
  let event_id := py_or (py_or (row_get r "Event #") (row_get r "Event#")) (row_get r "Event") in
  let expedition_id :=
    py_or (py_or (row_get r "Expedition #") (row_get r "Expedition#")) (row_get r "Expedition") in
  let p := PyDict.set key_eqb (Some "_row") (VInt i) p in
  let p := set_id "_event_id" event_id p in
  set_id "_expedition_id" expedition_id p.

Definition build_feature (lat_key lon_key : string) (i : Z) (r : row)
    (lat lon : PyFloat.float) : feature :=
  {| feature_type := "Feature";
     feature_geometry := {| geometry_type := "Point"; coordinates := [lon; lat] |};
     properties := build_props lat_key lon_key i r |}.

(** The body of the loop over the rows. *)
Definition process_row (lat_key lon_key : string) (st : loop_state) (ir : Z * row)
    : loop_state :=
  let '(i, r) := ir in
  match to_float (row_get r lat_key), to_float (row_get r lon_key) with
  | Some lat, Some lon =>
      {| features := features st ++ [build_feature lat_key lon_key i r lat lon];
         skipped := skipped st;
         printed := printed st |}
  | _, _ =>
      {| features := features st;
         skipped := skipped st + 1;
         printed := printed st ++ [skip_line lat_key lon_key i r] |}
  end.

Fixpoint enumerate {A : Type} (start : Z) (l : list A) : list (Z * A) :=
  match l with
  | [] => []
  | x :: l' => (start, x) :: enumerate (start + 1) l'
  end.

Definition initial_state : loop_state :=
  {| features := []; skipped := 0; printed := [] |}.

Definition run_loop (lat_key lon_key : string) (rows : list row) : loop_state :=
  fold_left (process_row lat_key lon_key) (enumerate 1 rows) initial_state.

(** What a run leaves behind: the exit status, the lines printed, and the
    document written to [OUTPUT_FILE], if any. *)
Record outcome := {
  exit_status : Z;
  stdout : list string;
  written : option geojson
}.

Definition fatal (lines : list string) : outcome :=
  {| exit_status := 1; stdout := lines; written := None |}.

(** A run of the script in the working directory [fs]. The file that
    [find_input_file] returns exists, so opening it gives its records. *)
Definition main (fs : directory) : outcome :=
  match find_input_file fs with
  | None =>
      fatal ("ERROR: Could not find input CSV. Expected one of:"
             :: map (fun n => " - " ++ n) INPUT_CANDIDATES)
  | Some in_file =>
      let records := match fs in_file with Some recs => recs | None => [] end in
      match Csv.fieldnames records with
      | None | Some [] => fatal ["ERROR: CSV appears to have no headers."]
      | Some names =>
          match pick_header names (HEADER_ALIASES "latitude"),
                pick_header names (HEADER_ALIASES "longitude") with
          | Some lat_key, Some lon_key =>
              let st := run_loop lat_key lon_key (Csv.rows records) in
              let doc := {| geojson_type := "FeatureCollection";
                            geojson_features := features st |} in
              {| exit_status := 0;
                 stdout := printed st
                           ++ ["OK: Wrote " ++ OUTPUT_FILE;
                               "Features: " ++ PyStr.of_int (Z.of_nat (List.length (features st)))
                               ++ "  Skipped (missing lat/lon): " ++ PyStr.of_int (skipped st)];
                 written := Some doc |}
          | _, _ =>
              fatal ["ERROR: Could not find Latitude/Longitude columns.";
                     "Found headers: " ++ PyStr.repr_list names]
          end
      end
  end.

(** ** Views of a run used to state its properties *)

(** Whether both coordinate cells of a row coerce to floats. *)
Definition has_coordinates (lat_key lon_key : string) (r : row) : bool :=
  match to_float (row_get r lat_key), to_float (row_get r lon_key) with
  | Some _, Some _ => true
  | _, _ => false
  end.

(** The Feature a numbered row gives, if it gives one. *)
Definition row_feature (lat_key lon_key : string) (ir : Z * row) : list feature :=
  match to_float (row_get (snd ir) lat_key), to_float (row_get (snd ir) lon_key) with
  | Some lat, Some lon => [build_feature lat_key lon_key (fst ir) (snd ir) lat lon]
  | _, _ => []
  end.

(** The diagnostic a numbered row gives, if it gives one. *)
Definition row_diagnostic (lat_key lon_key : string) (ir : Z * row) : list string :=
  if has_coordinates lat_key lon_key (snd ir) then []
  else [skip_line lat_key lon_key (fst ir) (snd ir)].

(** The value of [properties._row] of a Feature. *)
Definition feature_row (f : feature) : option value :=
  PyDict.get key_eqb (Some "_row") (properties f).

(** The outcome of a run whose loop ended in the state [st]. *)
Definition completed (st : loop_state) : outcome :=
  {| exit_status := 0;
     stdout := printed st
               ++ ["OK: Wrote " ++ OUTPUT_FILE;
                   "Features: " ++ PyStr.of_int (Z.of_nat (List.length (features st)))
                   ++ "  Skipped (missing lat/lon): " ++ PyStr.of_int (skipped st)];
     written := Some {| geojson_type := "FeatureCollection";
                        geojson_features := features st |} |}.

(** The setup of a run went through: a candidate file exists, it holds
    [records], and its header resolves to [lat_key] and [lon_key]. *)
Definition resolves (fs : directory) (records : list (list string))
    (lat_key lon_key : string) : Prop :=
  exists in_file names,
    find_input_file fs = Some in_file
    /\ fs in_file = Some records
    /\ Csv.fieldnames records = Some names
    /\ pick_header names (HEADER_ALIASES "latitude") = Some lat_key
    /\ pick_header names (HEADER_ALIASES "longitude") = Some lon_key.

(** The first of three cells that is true, else the last. *)
Definition first_nonempty (r : row) (a b c : string) : cell :=
  py_or (py_or (row_get r a) (row_get r b)) (row_get r c).

(** A key list after [d[k] = v]: a new key goes to the end. *)
Definition add_key (k : key) (l : list key) : list key :=
  if existsb (key_eqb k) l then l else l ++ [k].

(** The keys of the properties of a row, in their order: the columns of the
    row without the coordinate columns, then the synthetic keys that are not
    among them already. *)
Definition property_keys (lat_key lon_key : string) (r : row) : list key :=
  let ks := filter (fun k => negb (is_coordinate lat_key lon_key k)) (PyDict.keys r) in
  let ks := add_key (Some "_row") ks in
  let ks := if truthy (first_nonempty r "Event #" "Event#" "Event")
            then add_key (Some "_event_id") ks else ks in
  if truthy (first_nonempty r "Expedition #" "Expedition#" "Expedition")
  then add_key (Some "_expedition_id") ks else ks.

(** The characters the numeric coercers keep: all but the comma and the
    dollar sign. *)
Definition kept (c : ascii) : bool :=
  negb (Ascii.eqb c ","%char || Ascii.eqb c "$"%char).

(** A text with every comma and every dollar sign deleted. *)
Definition delete_separators (s : string) : string := PyStr.filter kept s.

(** ** Sample inputs *)

(** A table of two rows, the second without a latitude. *)
Definition sample_records : list (list string) :=
  [["Event #"; "City"; "Latitude"; "Longitude"; "Total Value of Care"; "Total Patients"];
   ["100"; "Austin"; "30.27"; "-97.74"; "$1,200.50"; "42"];
   ["101"; "Dallas"; ""; "-96.8"; "300"; "10"]].

(** A working directory that holds [records] under a single name. *)
Definition directory_with (name : string) (records : list (list string)) : directory :=
  fun n => if String.eqb n name then Some records else None.

Definition sample_directory : directory :=
  directory_with "master clinic mapbox file.csv" sample_records.

(** The sample directory with one more file, which is not a candidate. *)
Definition crowded_directory : directory :=
  fun n => if String.eqb n "notes.csv" then Some [["Latitude"; "Longitude"]]
           else sample_directory n.

(** A table with a column named like a synthetic key and no event column. *)
Definition collision_records : list (list string) :=
  [["Latitude"; "Longitude"; "_event_id"];
   ["30.27"; "-97.74"; "x"]].

Definition collision_directory : directory :=
  directory_with "master clinic mapbox file.csv" collision_records.

(** Whether every character of a text satisfies [p]. *)
Fixpoint all_chars (p : ascii -> bool) (s : string) : bool :=
  match s with
  | EmptyString => true
  | String c s' => p c && all_chars p s'
  end.

(** A text that [strip] empties: white space only. *)
Definition blank (s : string) : bool := all_chars PyStr.isspace s.

(** The number that a text of decimal digits writes, most significant
    digit first, continuing the number [acc] read so far. *)
Fixpoint decimal_acc (acc : Z) (s : string) : Z :=
  match s with
  | EmptyString => acc
  | String c s' => decimal_acc (10 * acc + Z.of_N (PyStr.code c - 48)) s'
  end.

Definition decimal_value (s : string) : Z := decimal_acc 0 s.

(** The sign in front of a decimal text. *)
Definition sign_prefix (neg : bool) : string := if neg then "-" else "".

(** A text that does not begin with white space. *)
Definition starts_clean (s : string) : bool :=
  match s with
  | EmptyString => true
  | String c _ => negb (PyStr.isspace c)
  end.

(** A text that does not end with white space. *)
Fixpoint ends_clean (s : string) : bool :=
  match s with
  | EmptyString => true
  | String c EmptyString => negb (PyStr.isspace c)
  | String _ s' => ends_clean s'
  end.

(** The pound sign, U+00A3. *)
Definition pound : ascii := "163"%char.


(** A table of three rows, the second without a latitude. *)
Definition ordered_records : list (list string) :=
  [["Event #"; "City"; "Latitude"; "Longitude"];
   ["100"; "Austin"; "30.27"; "-97.74"];
   ["101"; "Dallas"; ""; "-96.8"];
   ["102"; "Houston"; "29.76"; "-95.37"]].

Definition ordered_directory : directory :=
  directory_with "master clinic mapbox file.csv" ordered_records.

(** Whether the row of index [n] (from 0) of a table has both coordinates. *)
Definition row_has_coordinates (lat_key lon_key : string) (rows : list row) (n : nat) : bool :=
  match nth_error rows n with
  | Some r =>
      match to_float (row_get r lat_key), to_float (row_get r lon_key) with
      | Some _, Some _ => true
      | _, _ => false
      end
  | None => false
  end.

(** ** The text of the document: [json.dump] and the bytes of the file *)

(** [json.dump(geojson, out, ensure_ascii=False)] into a file opened with
    [encoding="utf-8"]: a dict is written in the order of its keys, with
    [", "] between the items and [": "] after a key; a key [None] is written
    as ["null"]; a string is quoted, with the quote, the backslash and the
    control characters escaped and every other character as it is; an
    integer in decimal; a float as [repr] gives it, the shortest decimal text
    that reads back as the same float, and [NaN], [Infinity], [-Infinity]
    for the values that are not finite. The text is then encoded in UTF-8. *)

Module PyJson.

(** A positive finite float as a fraction. *)
Definition fraction (m : positive) (e : Z) : Z * Z :=
  if 0 <=? e then (Zpos m * 2 ^ e, 1) else (Zpos m, 2 ^ (- e)).

(** The fraction [p/q] divided by [10^s], as a fraction. *)
Definition scale10 (p q s : Z) : Z * Z :=
  if 0 <=? s then (p, q * 10 ^ s) else (p * 10 ^ (- s), q).

(** The place of the decimal point of [p/q >= 1]: the least [k] with
    [p/q < 10^k], counting up from [k] with [pw = 10^k]. *)
Fixpoint point_up (p q pw k : Z) (limit : nat) : Z :=
  match limit with
  | O => k
  | S limit' => if p <? q * pw then k else point_up p q (pw * 10) (k + 1) limit'
  end.

(** The same for [p/q < 10^k], counting down from [k] with [pw = 10^(-k)]. *)
Fixpoint point_down (p q pw k : Z) (limit : nat) : Z :=
  match limit with
  | O => k
  | S limit' =>
      if p * (pw * 10) <? q then point_down p q (pw * 10) (k - 1) limit' else k
  end.

(** The place of the decimal point: the least [k] with [p/q < 10^k]. A
    binary64 lies between [10^(-324)] and [10^309]. *)
Definition decimal_point (p q : Z) : Z :=
  if p <? q then point_down p q 1 0 400 else point_up p q 10 1 400.

Definition float_eqb (x y : PyFloat.float) : bool :=
  match x, y with
  | S754_finite s m e, S754_finite s' m' e' => Bool.eqb s s' && Pos.eqb m m' && Z.eqb e e'
  | _, _ => false
  end.

(** The number of [n] digits next to [m * 2^e / 10^(k - n)] that reads back
    as the float: the nearer of the two neighbours if both do. *)
Definition candidate (m : positive) (e k : Z) (n : Z) : option Z :=
  let '(p, q) := fraction m e in
  let s := k - n in
  let '(a, b) := scale10 p q s in
  let lo := a / b in
  let r := a mod b in
  let hi := lo + 1 in
  let back c := float_eqb (PyFloat.of_decimal false c s) (S754_finite false m e) in
  let nearest :=
    match 2 * r ?= b with
    | Lt => lo
    | Gt => hi
    | Eq => if Z.even lo then lo else hi
    end in
  if back lo && back hi then Some nearest
  else if back lo then Some lo
  else if back hi then Some hi
  else None.

(** The shortest digits that read back as the float: the first length from
    [n] on, of [limit] lengths, that has a candidate. The result is the
    number that the digits write and their count. *)
Fixpoint shortest (m : positive) (e k : Z) (n : Z) (limit : nat) : Z * Z :=
  match limit with
  | O => (0, n)
  | S limit' =>
      match candidate m e k n with
      | Some c => (c, n)
      | None => shortest m e k (n + 1) limit'
      end
  end.

Fixpoint zeros (n : nat) : string :=
  match n with
  | O => EmptyString
  | S n' => String "0" (zeros n')
  end.

Definition rstrip_zeros (s : string) : string :=
  PyStr.rstrip (fun c => Ascii.eqb c "0") s.

Fixpoint take (n : nat) (s : string) : string :=
  match n, s with
  | S n', String c s' => String c (take n' s')
  | _, _ => EmptyString
  end.

Fixpoint drop (n : nat) (s : string) : string :=
  match n, s with
  | S n', String _ s' => drop n' s'
  | _, _ => s
  end.

(** The exponent of the scientific form: a sign and two digits at least. *)
Definition exponent_text (x : Z) : string :=
  let a := PyStr.of_int (Z.abs x) in
  (if x <? 0 then "-" else "+") ++ (if Z.abs x <? 10 then "0" ++ a else a).

(** The digits [ds] with the decimal point after the first [dp] of them, as
    [repr] lays them out: scientific below [1e-4] and from [1e16] on. *)
Definition layout (ds : string) (dp : Z) : string :=
  let len := Z.of_nat (String.length ds) in
  if (dp <=? -4) || (16 <? dp) then
    take 1 ds ++ (if 1 <? len then "." ++ drop 1 ds else "") ++ "e" ++ exponent_text (dp - 1)
  else if dp <=? 0 then "0." ++ zeros (Z.to_nat (- dp)) ++ ds
  else if len <=? dp then ds ++ zeros (Z.to_nat (dp - len)) ++ ".0"
  else take (Z.to_nat dp) ds ++ "." ++ drop (Z.to_nat dp) ds.

(** [repr(x)] for a finite float that is not zero, without its sign: the
    shortest digits that read back as [x], 17 at most. *)
Definition repr_finite (m : positive) (e : Z) : string :=
  let '(p, q) := fraction m e in
  let k := decimal_point p q in
  let '(c, n) := shortest m e k 1 17 in
  let all := PyStr.of_int c in
  let dp := k + (Z.of_nat (String.length all) - n) in
  layout (rstrip_zeros all) dp.

(** The text [json] writes for a float. *)
Definition float_text (x : PyFloat.float) : string :=
  match x with
  | S754_nan => "NaN"
  | S754_infinity s => if s then "-Infinity" else "Infinity"
  | S754_zero s => if s then "-0.0" else "0.0"
  | S754_finite s m e => (if s then "-" else "") ++ repr_finite m e
  end.

Definition backslash : ascii := "\"%char.

Definition char (c : ascii) : string := String c EmptyString.

(** One character inside a JSON string, as written with [ensure_ascii=False]:
    the quote, the backslash and the control characters are escaped. *)
Definition escape_char (c : ascii) : string :=
  let n := PyStr.code c in
  if Ascii.eqb c PyStr.dquote then String backslash (char PyStr.dquote)
  else if Ascii.eqb c backslash then String backslash (char backslash)
  else if (n =? 10)%N then String backslash "n"
  else if (n =? 13)%N then String backslash "r"
  else if (n =? 9)%N then String backslash "t"
  else if (n =? 8)%N then String backslash "b"
  else if (n =? 12)%N then String backslash "f"
  else if (n <? 32)%N then
    String backslash
      ("u00" ++ char (PyStr.hex_digit (n / 16)) ++ char (PyStr.hex_digit (n mod 16)))
  else char c.

Fixpoint escape (s : string) : string :=
  match s with
  | EmptyString => EmptyString
  | String c s' => escape_char c ++ escape s'
  end.

Definition string_text (s : string) : string :=
  String PyStr.dquote (escape s ++ char PyStr.dquote).

(** A key of a JSON object: [None] is written as the name [null]. *)
Definition key_text (k : key) : string :=
  string_text match k with Some s => s | None => "null" end.

Definition value_text (v : value) : string :=
  match v with
  | VNone => "null"
  | VStr s => string_text s
  | VInt z => PyStr.of_int z
  | VFloat x => float_text x
  end.

Definition object_text (items : list (string * string)) : string :=
  "{" ++ PyStr.join ", " (map (fun kv => fst kv ++ ": " ++ snd kv) items) ++ "}".

Definition array_text (items : list string) : string :=
  "[" ++ PyStr.join ", " items ++ "]".

Definition props_text (p : props) : string :=
  object_text (map (fun kv => (key_text (fst kv), value_text (snd kv))) p).

Definition geometry_text (g : geometry) : string :=
  object_text [(string_text "type", string_text (geometry_type g));
               (string_text "coordinates", array_text (map float_text (coordinates g)))].

Definition feature_text (f : feature) : string :=
  object_text [(string_text "type", string_text (feature_type f));
               (string_text "geometry", geometry_text (feature_geometry f));
               (string_text "properties", props_text (properties f))].

(** [json.dumps(geojson, ensure_ascii=False)] *)
Definition document_text (d : geojson) : string :=
  object_text [(string_text "type", string_text (geojson_type d));
               (string_text "features", array_text (map feature_text (geojson_features d)))].

(** The UTF-8 bytes of a character up to U+00FF. *)
Definition utf8_char (c : ascii) : list Byte.byte :=
  let n := PyStr.code c in
  if (n <? 128)%N then [byte_of_ascii c]
  else [byte_of_ascii (ascii_of_N (192 + n / 64));
        byte_of_ascii (ascii_of_N (128 + n mod 64))].

Fixpoint utf8 (s : string) : list Byte.byte :=
  match s with
  | EmptyString => []
  | String c s' => utf8_char c ++ utf8 s'
  end.

End PyJson.

(** The bytes of [OUTPUT_FILE] after a run: the document as [json.dump]
    writes it, encoded in UTF-8; nothing when no document is written. *)
Definition output_bytes (o : outcome) : option (list Byte.byte) :=
  option_map (fun d => PyJson.utf8 (PyJson.document_text d)) (written o).

(** A text in which every apostrophe stands for a double quote. *)
Definition with_quotes (s : string) : string :=
  PyStr.replace "'" (String PyStr.dquote EmptyString) s.

(** The file written for the sample table. *)
Definition sample_output : string :=
  with_quotes
    ("{'type': 'FeatureCollection', 'features': [{'type': 'Feature', "
     ++ "'geometry': {'type': 'Point', 'coordinates': [-97.74, 30.27]}, "
     ++ "'properties': {'Event #': 100, 'City': 'Austin', "
     ++ "'Total Value of Care': 1200.5, 'Total Patients': 42, "
     ++ "'_row': 1, '_event_id': '100'}}]}").

(** A table with characters beyond ASCII and a quoted word, kept under the
    second candidate name: the city is [M], U+00E1, [laga] and the amount is
    the pound sign and [5]. *)
Definition accented_records : list (list string) :=
  [["City"; "Lat"; "Lng"; "Total Value of Care"; "Note"];
   ["M" ++ String "225" "laga"; "36.72"; "-4.42"; String pound "5"; with_quotes "say 'hi'"]].

Definition accented_directory : directory :=
  directory_with "master clinic mapbox file.cvs" accented_records.

(** The file written for the accented table, byte by byte: U+00E1 is the
    bytes 195 and 161, the pound sign the bytes 194 and 163. *)
Definition accented_output : string :=
  with_quotes
    ("{'type': 'FeatureCollection', 'features': [{'type': 'Feature', "
     ++ "'geometry': {'type': 'Point', 'coordinates': [-4.42, 36.72]}, "
     ++ "'properties': {'City': 'M" ++ String "195" (String "161" "laga', ")
     ++ "'Total Value of Care': '" ++ String "194" (String "163" "5', ")
     ++ "'Note': 'say \'hi\'', '_row': 1}}]}").

(** What a run leaves of a working directory: it opens [OUTPUT_FILE] for
    writing and no other file, so that every other name holds what it held. *)
Definition left_by_run (before after : directory) : Prop :=
  forall n, n <> OUTPUT_FILE -> after n = before n.

(** ** Lemmas on keys and dicts *)

Local Open Scope list_scope.

Lemma key_eqb_eq (a b : key) : key_eqb a b = true <-> a = b.
Proof.
  destruct a as [x|], b as [y|]; simpl; try (split; congruence).
  rewrite String.eqb_eq. split; congruence.
Qed.

Lemma key_eqb_refl (a : key) : key_eqb a a = true.
Proof. now apply key_eqb_eq. Qed.

Lemma key_eqb_neq (a b : key) : a <> b -> key_eqb a b = false.
Proof.
  intros H. destruct (key_eqb a b) eqn:E; [|reflexivity].
  apply key_eqb_eq in E. contradiction.
Qed.

Section DictFacts.

Context {V : Type}.
Implicit Types (d : @PyDict.dict key V) (k : key) (v : V).

Lemma get_set_same d k v : PyDict.get key_eqb k (PyDict.set key_eqb k v d) = Some v.
Proof.
  induction d as [|[k' v'] d IH]; simpl.
  - now rewrite key_eqb_refl.
  - destruct (key_eqb k k') eqn:E; simpl; rewrite E; auto.
Qed.

Lemma get_set_other d k k' v :
  k <> k' -> PyDict.get key_eqb k (PyDict.set key_eqb k' v d) = PyDict.get key_eqb k d.
Proof.
  intros Hne. induction d as [|[k0 v0] d IH]; simpl.
  - now rewrite key_eqb_neq.
  - destruct (key_eqb k' k0) eqn:E; simpl.
    + apply key_eqb_eq in E. subst k0. now rewrite key_eqb_neq.
    + destruct (key_eqb k k0); auto.
Qed.

Lemma get_None_iff d k : PyDict.get key_eqb k d = None <-> ~ In k (PyDict.keys d).
Proof.
  induction d as [|[k' v'] d IH]; simpl.
  - tauto.
  - destruct (key_eqb k k') eqn:E.
    + apply key_eqb_eq in E. split; [discriminate | intros H; exfalso; apply H; auto].
    + rewrite IH. split.
      * intros H [H1|H1]; [|tauto]. subst. rewrite key_eqb_refl in E. discriminate.
      * tauto.
Qed.

Lemma keys_set d k v :
  PyDict.keys (PyDict.set key_eqb k v d)
  = if existsb (key_eqb k) (PyDict.keys d) then PyDict.keys d else PyDict.keys d ++ [k].
Proof.
  induction d as [|[k' v'] d IH]; simpl; [reflexivity|].
  destruct (key_eqb k k') eqn:E; simpl; [reflexivity|].
  fold (PyDict.keys (PyDict.set key_eqb k v d)). rewrite IH.
  now destruct (existsb (key_eqb k) (PyDict.keys d)).
Qed.

Lemma existsb_key_In k (l : list key) : existsb (key_eqb k) l = true <-> In k l.
Proof.
  rewrite existsb_exists. split.
  - intros [x [Hx E]]. apply key_eqb_eq in E. now subst.
  - intros H. exists k. split; [assumption | apply key_eqb_refl].
Qed.

Lemma NoDup_keys_set d k v :
  NoDup (PyDict.keys d) -> NoDup (PyDict.keys (PyDict.set key_eqb k v d)).
Proof.
  intros Hd. rewrite keys_set.
  destruct (existsb (key_eqb k) (PyDict.keys d)) eqn:E; [assumption|].
  apply NoDup_app; [assumption | repeat constructor; auto | ].
  - intros x Hx [<-|[]].
    apply existsb_key_In in Hx. congruence.
Qed.

End DictFacts.

(** ** Lemmas on the loop *)

Lemma enumerate_nth {A : Type} (l : list A) : forall (a : Z) (n : nat),
  nth_error (enumerate a l) n = option_map (fun x => (a + Z.of_nat n, x)) (nth_error l n).
Proof.
  induction l as [|x l IH]; intros a n.
  - now destruct n.
  - destruct n as [|n]; simpl.
    + now rewrite Z.add_0_r.
    + rewrite IH. destruct (nth_error l n); simpl; [|reflexivity].
      do 2 f_equal. lia.
Qed.

Lemma enumerate_In {A : Type} (l : list A) (a i : Z) (x : A) :
  In (i, x) (enumerate a l) <-> exists n, nth_error l n = Some x /\ i = a + Z.of_nat n.
Proof.
  split.
  - intros H. apply In_nth_error in H. destruct H as [n H].
    rewrite enumerate_nth in H. exists n.
    destruct (nth_error l n); simpl in H; [|discriminate].
    inversion H. auto.
  - intros [n [H ->]]. apply nth_error_In with n.
    rewrite enumerate_nth, H. reflexivity.
Qed.

Lemma process_row_features lat_key lon_key st ir :
  features (process_row lat_key lon_key st ir) = features st ++ row_feature lat_key lon_key ir.
Proof.
  destruct ir as [i r]. unfold process_row, row_feature. simpl.
  destruct (to_float (row_get r lat_key)), (to_float (row_get r lon_key));
    simpl; now rewrite ?app_nil_r.
Qed.

Lemma process_row_printed lat_key lon_key st ir :
  printed (process_row lat_key lon_key st ir) = printed st ++ row_diagnostic lat_key lon_key ir.
Proof.
  destruct ir as [i r]. unfold process_row, row_diagnostic, has_coordinates. simpl.
  destruct (to_float (row_get r lat_key)), (to_float (row_get r lon_key));
    simpl; now rewrite ?app_nil_r.
Qed.

Lemma process_row_skipped lat_key lon_key st ir :
  skipped (process_row lat_key lon_key st ir)
  = skipped st + (if has_coordinates lat_key lon_key (snd ir) then 0 else 1).
Proof.
  destruct ir as [i r]. unfold process_row, has_coordinates. simpl.
  destruct (to_float (row_get r lat_key)), (to_float (row_get r lon_key)); simpl; lia.
Qed.

Lemma loop_features lat_key lon_key (l : list (Z * row)) : forall st,
  features (fold_left (process_row lat_key lon_key) l st)
  = features st ++ flat_map (row_feature lat_key lon_key) l.
Proof.
  induction l as [|ir l IH]; intros st; simpl.
  - now rewrite app_nil_r.
  - now rewrite IH, process_row_features, <- app_assoc.
Qed.

Lemma loop_printed lat_key lon_key (l : list (Z * row)) : forall st,
  printed (fold_left (process_row lat_key lon_key) l st)
  = printed st ++ flat_map (row_diagnostic lat_key lon_key) l.
Proof.
  induction l as [|ir l IH]; intros st; simpl.
  - now rewrite app_nil_r.
  - now rewrite IH, process_row_printed, <- app_assoc.
Qed.

Lemma loop_skipped lat_key lon_key (l : list (Z * row)) : forall st,
  skipped (fold_left (process_row lat_key lon_key) l st)
  = skipped st
    + Z.of_nat (List.length (filter (fun ir => negb (has_coordinates lat_key lon_key (snd ir))) l)).
Proof.
  induction l as [|ir l IH]; intros st; simpl.
  - lia.
  - rewrite IH, process_row_skipped.
    destruct (has_coordinates lat_key lon_key (snd ir)); simpl; lia.
Qed.

Lemma build_props_row lat_key lon_key i r :
  PyDict.get key_eqb (Some "_row") (build_props lat_key lon_key i r) = Some (VInt i).
Proof.
  unfold build_props, set_id.
  repeat match goal with
         | |- context [if ?b then _ else _] => destruct b
         end;
    rewrite ?(get_set_other _ (Some "_row") (Some "_expedition_id")) by discriminate;
    rewrite ?(get_set_other _ (Some "_row") (Some "_event_id")) by discriminate;
    apply get_set_same.
Qed.

Lemma row_feature_In lat_key lon_key ir f :
  In f (row_feature lat_key lon_key ir) ->
  has_coordinates lat_key lon_key (snd ir) = true
  /\ feature_row f = Some (VInt (fst ir))
  /\ exists lat lon,
       to_float (row_get (snd ir) lat_key) = Some lat
       /\ to_float (row_get (snd ir) lon_key) = Some lon
       /\ f = build_feature lat_key lon_key (fst ir) (snd ir) lat lon.
Proof.
  unfold row_feature, has_coordinates.
  destruct (to_float (row_get (snd ir) lat_key)) as [lat|];
    destruct (to_float (row_get (snd ir) lon_key)) as [lon|]; simpl; try tauto.
  intros [<-|[]]. split; [reflexivity|]. split.
  - apply build_props_row.
  - exists lat, lon. auto.
Qed.

(** ** Lemmas on [main] *)

Lemma pick_header_nil (aliases : list string) : pick_header [] aliases = None.
Proof. induction aliases; simpl; auto. Qed.

Lemma main_resolves fs records lat_key lon_key :
  resolves fs records lat_key lon_key ->
  main fs = completed (run_loop lat_key lon_key (Csv.rows records)).
Proof.
  intros (in_file & names & Hf & Hr & Hn & Hlat & Hlon).
  unfold main. rewrite Hf, Hr, Hn.
  destruct names as [|h names]; [now rewrite pick_header_nil in Hlat|].
  rewrite Hlat, Hlon. reflexivity.
Qed.

Lemma main_cases fs :
  (exists records lat_key lon_key, resolves fs records lat_key lon_key)
  \/ (exit_status (main fs) = 1 /\ written (main fs) = None).
Proof.
  unfold main, resolves.
  destruct (find_input_file fs) as [in_file|] eqn:Hf; [|right; auto].
  destruct (fs in_file) as [records|] eqn:Hr.
  - destruct (Csv.fieldnames records) as [[|h names]|] eqn:Hn; try (right; split; reflexivity).
    destruct (pick_header (h :: names) (HEADER_ALIASES "latitude")) as [lat_key|] eqn:Hlat;
      [|right; split; reflexivity].
    destruct (pick_header (h :: names) (HEADER_ALIASES "longitude")) as [lon_key|] eqn:Hlon;
      [|right; split; reflexivity].
    left. exists records, lat_key, lon_key, in_file, (h :: names). auto.
  - right. split; reflexivity.
Qed.

Lemma has_coordinates_true lat_key lon_key r :
  has_coordinates lat_key lon_key r = true
  <-> to_float (row_get r lat_key) <> None /\ to_float (row_get r lon_key) <> None.
Proof.
  unfold has_coordinates.
  destruct (to_float (row_get r lat_key)), (to_float (row_get r lon_key));
    split; try discriminate; try (intros [? ?]; congruence); intros _; split; discriminate.
Qed.

Lemma has_coordinates_false lat_key lon_key r :
  has_coordinates lat_key lon_key r = false
  <-> to_float (row_get r lat_key) = None \/ to_float (row_get r lon_key) = None.
Proof.
  unfold has_coordinates.
  destruct (to_float (row_get r lat_key)), (to_float (row_get r lon_key));
    split; try discriminate; auto; intros [?|?]; discriminate.
Qed.

Lemma features_In lat_key lon_key rows f :
  In f (features (run_loop lat_key lon_key rows)) <->
  exists n r, nth_error rows n = Some r
              /\ In f (row_feature lat_key lon_key (Z.of_nat n + 1, r)).
Proof.
  unfold run_loop. rewrite loop_features. simpl. rewrite in_flat_map. split.
  - intros [[i r] [Hin Hf]]. apply enumerate_In in Hin. destruct Hin as [n [Hn ->]].
    exists n, r. split; [assumption|]. now rewrite Z.add_comm.
  - intros (n & r & Hn & Hf). exists (Z.of_nat n + 1, r). split; [|assumption].
    apply enumerate_In. exists n. split; [assumption | lia].
Qed.

Lemma printed_In lat_key lon_key rows line :
  In line (printed (run_loop lat_key lon_key rows)) <->
  exists n r, nth_error rows n = Some r
              /\ has_coordinates lat_key lon_key r = false
              /\ line = skip_line lat_key lon_key (Z.of_nat n + 1) r.
Proof.
  unfold run_loop. rewrite loop_printed. simpl. rewrite in_flat_map. split.
  - intros [[i r] [Hin Hl]]. apply enumerate_In in Hin. destruct Hin as [n [Hn ->]].
    unfold row_diagnostic in Hl. simpl in Hl.
    destruct (has_coordinates lat_key lon_key r) eqn:E; [destruct Hl|].
    destruct Hl as [<-|[]]. exists n, r. repeat split; auto. now rewrite Z.add_comm.
  - intros (n & r & Hn & Hc & ->). exists (Z.of_nat n + 1, r). split.
    + apply enumerate_In. exists n. split; [assumption | lia].
    + unfold row_diagnostic. simpl. rewrite Hc. now left.
Qed.

Lemma skipped_count lat_key lon_key rows :
  skipped (run_loop lat_key lon_key rows)
  = Z.of_nat (List.length (filter (fun r => negb (has_coordinates lat_key lon_key r)) rows)).
Proof.
  unfold run_loop. rewrite loop_skipped. simpl. f_equal.
  generalize 1. induction rows as [|r rows IH]; intros a; simpl; [reflexivity|].
  destruct (has_coordinates lat_key lon_key r); simpl; rewrite IH; reflexivity.
Qed.

(** The sample table: one Feature for the first row, with the monetary
    total as a float, the patient count as an integer and the event number
    as identifier; the second row is skipped and reported. *)
Example sample_run :
  exists x f,
    PyFloat.of_string "1200.5" = Some x
    /\ written (main sample_directory)
       = Some {| geojson_type := "FeatureCollection"; geojson_features := [f] |}
    /\ PyDict.get key_eqb (Some "Total Value of Care"%string) (properties f) = Some (VFloat x)
    /\ PyDict.get key_eqb (Some "Total Patients"%string) (properties f) = Some (VInt 42)
    /\ PyDict.get key_eqb (Some "_event_id"%string) (properties f) = Some (VStr "100")
    /\ stdout (main sample_directory)
       = ["SKIPPED row 2: lat='' lon='-96.8' event='101' city='Dallas'";
          "OK: Wrote MapBox Dataset.geojson";
          "Features: 1  Skipped (missing lat/lon): 1"]%string.
Proof.
  do 2 eexists. repeat split; vm_compute; reflexivity.
Qed.

(** ** Rows and Features *)

Lemma sample_resolves : resolves sample_directory sample_records "Latitude" "Longitude".
Proof.
  exists "master clinic mapbox file.csv".
  exists ["Event #"; "City"; "Latitude"; "Longitude"; "Total Value of Care"; "Total Patients"].
  repeat split; reflexivity.
Qed.

(** C2. A row whose latitude and longitude both parse has a Feature in the
    document with [properties._row] equal to the ordinal of the row, counted
    from 1; every Feature with that ordinal is a point whose coordinates are
    the longitude first and the latitude second. *)
Theorem C2_coordinates_lon_lat_and_row
    (fs : directory) (records : list (list string)) (lat_key lon_key : string)
    (n : nat) (r : row) (lat lon : PyFloat.float) :
  resolves fs records lat_key lon_key ->
  nth_error (Csv.rows records) n = Some r ->
  to_float (row_get r lat_key) = Some lat ->
  to_float (row_get r lon_key) = Some lon ->
  exists doc,
    written (main fs) = Some doc
    /\ (exists f, In f (geojson_features doc)
                  /\ feature_row f = Some (VInt (Z.of_nat n + 1)))
    /\ (forall f, In f (geojson_features doc) ->
                  feature_row f = Some (VInt (Z.of_nat n + 1)) ->
                  coordinates (feature_geometry f) = [lon; lat]
                  /\ geometry_type (feature_geometry f) = "Point"%string
                  /\ feature_type f = "Feature"%string).
Proof.
  intros Hres Hn Hlat Hlon. rewrite (main_resolves _ _ _ _ Hres).
  eexists. split; [reflexivity|].
  unfold completed. cbn [geojson_features]. split.
  - exists (build_feature lat_key lon_key (Z.of_nat n + 1) r lat lon). split.
    + apply features_In. exists n, r. split; [assumption|].
      unfold row_feature. simpl. rewrite Hlat, Hlon. now left.
    + apply build_props_row.
  - intros f Hin Hrow. apply features_In in Hin.
    destruct Hin as (m & r' & Hm & Hf). apply row_feature_In in Hf.
    destruct Hf as (_ & Hrow' & x & y & Hx & Hy & ->). simpl in *.
    rewrite Hrow in Hrow'. inversion Hrow' as [Hi].
    assert (m = n) by lia. subst m.
    assert (r' = r) by congruence. subst r'.
    rewrite Hlat in Hx. rewrite Hlon in Hy. inversion Hx. inversion Hy. auto.
Qed.

Lemma C2_coordinates_lon_lat_and_row_witness :
  exists doc,
    written (main sample_directory) = Some doc
    /\ exists f, In f (geojson_features doc) /\ feature_row f = Some (VInt 1).
Proof.
  destruct (C2_coordinates_lon_lat_and_row sample_directory sample_records
              "Latitude" "Longitude" 0 _ _ _ sample_resolves eq_refl eq_refl eq_refl)
    as (doc & Hw & Hex & _).
  exists doc. split; [exact Hw | exact Hex].
Defined.

(** ** Header resolution *)

Lemma mem_In (a : string) (l : list string) : mem a l = true <-> In a l.
Proof.
  unfold mem. rewrite existsb_exists. split.
  - intros [x [Hx E]]. apply String.eqb_eq in E. now subst.
  - intros H. exists a. split; [assumption | apply String.eqb_refl].
Qed.

Lemma pick_header_Some names aliases a :
  pick_header names aliases = Some a <->
  exists pre post, aliases = pre ++ a :: post
                   /\ In a names
                   /\ forall b, In b pre -> ~ In b names.
Proof.
  induction aliases as [|x aliases IH]; simpl.
  - split; [discriminate|]. intros (pre & post & H & _). now destruct pre.
  - destruct (mem x names) eqn:E.
    + apply mem_In in E. split.
      * intros H. inversion H. subst x. exists [], aliases. simpl. tauto.
      * intros (pre & post & H & Ha & Hpre). destruct pre as [|y pre]; simpl in H.
        -- congruence.
        -- inversion H. subst y. exfalso. apply (Hpre x); simpl; auto.
    + assert (Hx : ~ In x names) by (rewrite <- mem_In; congruence).
      rewrite IH. split.
      * intros (pre & post & -> & Ha & Hpre). exists (x :: pre), post.
        simpl. repeat split; auto. intros b [<-|Hb]; auto.
      * intros (pre & post & H & Ha & Hpre). destruct pre as [|y pre]; simpl in H.
        -- inversion H. subst x. contradiction.
        -- inversion H. subst. exists pre, post. repeat split; auto.
           intros b Hb. apply Hpre. simpl. auto.
Qed.

Lemma pick_header_None names aliases :
  pick_header names aliases = None <-> forall a, In a aliases -> ~ In a names.
Proof.
  induction aliases as [|x aliases IH]; simpl.
  - split; [intros _ a [] | reflexivity].
  - destruct (mem x names) eqn:E.
    + apply mem_In in E. split; [discriminate|]. intros H. exfalso. apply (H x); auto.
    + assert (Hx : ~ In x names) by (rewrite <- mem_In; congruence).
      rewrite IH. split.
      * intros H a [<-|Ha]; auto.
      * intros H a Ha. apply H. auto.
Qed.

(** C3, as the code has it. Header resolution returns the first alias, in
    the declared order, that is among the column names, and none exactly
    when no alias is among them. A column name counts only when it is
    spelled as one of the aliases, character for character: ["Lat"]
    resolves without ["Latitude"], ["Latitude"] wins over ["Lat"] when both
    are there, and a spelling that is not listed resolves to nothing. *)
Theorem C3_first_alias_exact_spelling (names aliases : list string) :
  (forall a, pick_header names aliases = Some a <->
             exists pre post, aliases = pre ++ a :: post
                              /\ In a names
                              /\ forall b, In b pre -> ~ In b names)
  /\ (pick_header names aliases = None <-> forall a, In a aliases -> ~ In a names)
  /\ pick_header ["City"; "Lat"; "Lng"] (HEADER_ALIASES "latitude") = Some "Lat"%string
  /\ pick_header ["Lat"; "Latitude"] (HEADER_ALIASES "latitude") = Some "Latitude"%string
  /\ pick_header ["lng"; "Long"] (HEADER_ALIASES "longitude") = Some "Long"%string.
Proof.
  split; [intros a; apply pick_header_Some|].
  split; [apply pick_header_None|].
  repeat split; reflexivity.
Qed.

(** C3, as the specification has it, fails: the column name ["LATITUDE"]
    differs from the alias ["Latitude"] by capitalization only, yet it
    does not resolve, and the run ends with the status 1. *)
Lemma C3_counterexample_capitalization :
  In "Latitude"%string (HEADER_ALIASES "latitude")
  /\ PyStr.lower "LATITUDE" = PyStr.lower "Latitude"
  /\ pick_header ["LATITUDE"; "Longitude"] (HEADER_ALIASES "latitude") = None
  /\ exit_status (main (directory_with "master clinic mapbox file.csv"
                         [["LATITUDE"; "Longitude"]; ["30.27"; "-97.74"]])) = 1.
Proof.
  repeat split; try reflexivity. simpl. auto.
Qed.

(** ** Rows of the reader and their properties *)

Lemma fold_set_NoDup {A : Type} (f : A -> key) (g : A -> cell) (l : list A) :
  forall d : row,
    NoDup (PyDict.keys d) ->
    NoDup (PyDict.keys (fold_left (fun d x => PyDict.set key_eqb (f x) (g x) d) l d)).
Proof.
  induction l as [|x l IH]; intros d Hd; simpl; [assumption|].
  apply IH. now apply NoDup_keys_set.
Qed.

Lemma dict_row_NoDup (names cells : list string) :
  NoDup (PyDict.keys (Csv.dict_row names cells)).
Proof.
  unfold Csv.dict_row.
  assert (H : NoDup (PyDict.keys
                       (fold_left (fun (d : row) kv =>
                                     PyDict.set key_eqb (Some (fst kv)) (CStr (snd kv)) d)
                                  (combine names cells) [])))
    by (apply (fold_set_NoDup (fun kv => Some (fst kv)) (fun kv => CStr (snd kv)));
        constructor).
  destruct (List.length names <? List.length cells)%nat; [now apply NoDup_keys_set|].
  destruct (List.length cells <? List.length names)%nat; [|assumption].
  now apply (fold_set_NoDup (fun k => Some k) (fun _ => CNone)).
Qed.

Lemma rows_NoDup (records : list (list string)) (r : row) :
  In r (Csv.rows records) -> NoDup (PyDict.keys r).
Proof.
  destruct records as [|h rest]; simpl; [tauto|].
  intros H. apply in_map_iff in H. destruct H as [cells [<- _]].
  apply dict_row_NoDup.
Qed.

Lemma add_column_get_other lat_key lon_key (r : row) (k : key) : forall p : props,
  ~ In k (PyDict.keys r) ->
  PyDict.get key_eqb k (fold_left (add_column lat_key lon_key) r p)
  = PyDict.get key_eqb k p.
Proof.
  induction r as [|[k0 v0] r IH]; intros p Hk; simpl; [reflexivity|].
  simpl in Hk. rewrite IH by tauto.
  unfold add_column. simpl. destruct (is_coordinate lat_key lon_key k0); [reflexivity|].
  apply get_set_other. intros ->. tauto.
Qed.

Lemma column_props_get lat_key lon_key (r : row) (k : key) (v : cell) :
  NoDup (PyDict.keys r) -> In (k, v) r ->
  is_coordinate lat_key lon_key k = false ->
  PyDict.get key_eqb k (column_props lat_key lon_key r)
  = Some (to_number_if_possible k v).
Proof.
  unfold column_props. generalize (@nil (key * value)).
  induction r as [|[k0 v0] r IH]; intros p Hnd Hin Hc; simpl in *; [tauto|].
  inversion Hnd as [|? ? Hk0 Hnd']. subst.
  destruct Hin as [E|Hin].
  - inversion E. subst k0 v0.
    rewrite add_column_get_other by assumption.
    unfold add_column. simpl. rewrite Hc. apply get_set_same.
  - now apply IH.
Qed.

Lemma keys_set_new {V : Type} (d : @PyDict.dict key V) (k : key) (v : V) :
  ~ In k (PyDict.keys d) ->
  PyDict.keys (PyDict.set key_eqb k v d) = PyDict.keys d ++ [k].
Proof.
  intros H. rewrite keys_set.
  destruct (existsb (key_eqb k) (PyDict.keys d)) eqn:E; [|reflexivity].
  apply existsb_key_In in E. contradiction.
Qed.

Lemma column_props_keys_eq lat_key lon_key (r : row) :
  NoDup (PyDict.keys r) ->
  PyDict.keys (column_props lat_key lon_key r)
  = filter (fun k => negb (is_coordinate lat_key lon_key k)) (PyDict.keys r).
Proof.
  unfold column_props.
  assert (G : forall p : props,
             NoDup (PyDict.keys r) ->
             (forall k, In k (PyDict.keys r) -> ~ In k (PyDict.keys p)) ->
             PyDict.keys (fold_left (add_column lat_key lon_key) r p)
             = PyDict.keys p
               ++ filter (fun k => negb (is_coordinate lat_key lon_key k)) (PyDict.keys r)).
  { induction r as [|[k0 v0] r IH]; intros p Hnd Hdis; simpl.
    - now rewrite app_nil_r.
    - simpl in Hnd. inversion Hnd as [|? ? Hk0 Hnd']. subst.
      unfold add_column at 2. simpl.
      destruct (is_coordinate lat_key lon_key k0) eqn:Ec; simpl.
      + apply IH; [assumption|]. intros k Hk. apply Hdis. simpl. auto.
      + rewrite IH; [|assumption|].
        * rewrite keys_set_new by (apply Hdis; simpl; auto).
          now rewrite <- app_assoc.
        * intros k Hk. rewrite keys_set_new by (apply Hdis; simpl; auto).
          intros Hin. apply in_app_or in Hin. destruct Hin as [Hin|[<-|[]]].
          -- apply (Hdis k); simpl; auto.
          -- contradiction. }
  intros Hnd. rewrite G; [reflexivity | assumption | intros k _ []].
Qed.

Lemma keys_set_add_key (p : props) (k : key) (v : value) :
  PyDict.keys (PyDict.set key_eqb k v p) = add_key k (PyDict.keys p).
Proof. apply keys_set. Qed.

Lemma build_props_keys lat_key lon_key (i : Z) (r : row) :
  NoDup (PyDict.keys r) ->
  PyDict.keys (build_props lat_key lon_key i r) = property_keys lat_key lon_key r.
Proof.
  intros Hnd. unfold build_props, property_keys, set_id.
  fold (first_nonempty r "Event #" "Event#" "Event").
  fold (first_nonempty r "Expedition #" "Expedition#" "Expedition").
  destruct (truthy (first_nonempty r "Event #" "Event#" "Event"));
    destruct (truthy (first_nonempty r "Expedition #" "Expedition#" "Expedition"));
    rewrite ?keys_set_add_key, column_props_keys_eq by assumption; reflexivity.
Qed.

(** ** Coercion *)

Lemma replace_filter (c : ascii) (s : string) :
  PyStr.replace c "" s = PyStr.filter (fun x => negb (Ascii.eqb x c)) s.
Proof.
  induction s as [|x s IH]; simpl; [reflexivity|].
  destruct (Ascii.eqb x c); simpl; now rewrite IH.
Qed.

Lemma filter_filter (p q : ascii -> bool) (s : string) :
  PyStr.filter p (PyStr.filter q s) = PyStr.filter (fun c => q c && p c) s.
Proof.
  induction s as [|x s IH]; simpl; [reflexivity|].
  destruct (q x); simpl; [destruct (p x); simpl|]; now rewrite IH.
Qed.

Lemma filter_ext (p q : ascii -> bool) (s : string) :
  (forall c, p c = q c) -> PyStr.filter p s = PyStr.filter q s.
Proof.
  intros H. induction s as [|x s IH]; simpl; [reflexivity|].
  rewrite H, IH. reflexivity.
Qed.

Lemma replace_both (s : string) :
  PyStr.replace "$" "" (PyStr.replace "," "" s) = delete_separators s.
Proof.
  rewrite !replace_filter, filter_filter. apply filter_ext.
  intros c. unfold kept. now destruct (Ascii.eqb c ","), (Ascii.eqb c "$").
Qed.

Lemma contains_filter (p : ascii -> bool) (x : ascii) (s : string) :
  p x = false -> PyStr.contains x (PyStr.filter p s) = false.
Proof.
  intros Hx. induction s as [|c s IH]; simpl; [reflexivity|].
  destruct (p c) eqn:E; simpl; [|assumption].
  rewrite IH, orb_false_r. destruct (Ascii.eqb_spec c x); [congruence | reflexivity].
Qed.

Lemma to_float_eq (val : cell) :
  to_float val
  = match val with
    | CNone => None
    | _ => PyFloat.of_string (delete_separators (PyStr.strip (str val)))
    end.
Proof.
  unfold to_float. destruct val; [reflexivity| |];
    rewrite replace_both;
    match goal with
    | |- context [PyStr.is_empty ?t] => destruct t; reflexivity
    end.
Qed.

Lemma to_int_to_float (val : cell) :
  to_int val = match to_float val with
               | Some x => PyFloat.trunc x
               | None => None
               end.
Proof.
  unfold to_int, to_float. destruct val; [reflexivity| |];
    match goal with
    | |- context [PyStr.is_empty ?t] => destruct (PyStr.is_empty t); reflexivity
    end.
Qed.


Lemma in_numeric_int_cols (k : key) :
  existsb (key_eqb k) (map Some numeric_int_cols) = true
  <-> In k (map Some numeric_int_cols).
Proof. apply existsb_key_In. Qed.

Lemma is_empty_true (s : string) : PyStr.is_empty s = true <-> s = EmptyString.
Proof. destruct s; simpl; split; congruence. Qed.

(** C10. The two [replace] calls of the coercers delete every comma and
    every dollar sign of the trimmed text, wherever they stand: what is left
    holds neither, and float coercion is [float] of the trimmed text with
    these characters deleted, integer coercion its truncation. So ["12,34"]
    coerces to 1234, and so does ["1$2,3,4"]. *)
Theorem C10_separators_deleted_everywhere :
  (forall s, PyStr.replace "$" "" (PyStr.replace "," "" s) = delete_separators s)
  /\ (forall s, PyStr.contains "," (delete_separators s) = false
                /\ PyStr.contains "$" (delete_separators s) = false)
  /\ (forall s, to_float (CStr s)
                = PyFloat.of_string (delete_separators (PyStr.strip s)))
  /\ (forall s, to_int (CStr s)
                = match PyFloat.of_string (delete_separators (PyStr.strip s)) with
                  | Some x => PyFloat.trunc x
                  | None => None
                  end)
  /\ to_float (CStr "12,34") = PyFloat.of_string "1234"
  /\ to_int (CStr "12,34") = Some 1234
  /\ to_int (CStr "1$2,3,4") = Some 1234.
Proof.
  split; [exact replace_both|].
  split; [intros s; split; apply contains_filter; reflexivity|].
  split; [intros s; apply (to_float_eq (CStr s))|].
  split; [intros s; rewrite to_int_to_float; now rewrite (to_float_eq (CStr s))|].
  repeat split; vm_compute; reflexivity.
Qed.

(** ** Synthetic identifiers *)

Lemma column_props_keys lat_key lon_key (r : row) (k : key) :
  In k (PyDict.keys (column_props lat_key lon_key r)) -> In k (PyDict.keys r).
Proof.
  unfold column_props.
  assert (G : forall (p : props),
             In k (PyDict.keys (fold_left (add_column lat_key lon_key) r p)) ->
             In k (PyDict.keys p) \/ In k (PyDict.keys r)).
  { induction r as [|[k0 v0] r IH]; intros p; simpl; [auto|].
    intros H. apply IH in H. destruct H as [H|H]; [|auto].
    unfold add_column in H. simpl in H.
    destruct (is_coordinate lat_key lon_key k0); [auto|].
    rewrite keys_set in H.
    destruct (existsb (key_eqb k0) (PyDict.keys p)); [auto|].
    apply in_app_or in H. destruct H as [H|[H|[]]]; auto. }
  intros H. apply G in H. destruct H as [[]|H]. exact H.
Qed.

Lemma column_props_absent lat_key lon_key (r : row) (name : string) :
  ~ In (Some name) (PyDict.keys r) ->
  PyDict.get key_eqb (Some name) (column_props lat_key lon_key r) = None.
Proof.
  intros H. apply get_None_iff. intros Hin. apply H.
  eapply column_props_keys. exact Hin.
Qed.

Lemma first_nonempty_eq (r : row) (a b c : string) :
  first_nonempty r a b c
  = if truthy (row_get r a) then row_get r a
    else if truthy (row_get r b) then row_get r b
    else row_get r c.
Proof.
  unfold first_nonempty, py_or.
  destruct (truthy (row_get r a)) eqn:Ea; [now rewrite Ea|].
  destruct (truthy (row_get r b)) eqn:Eb; now rewrite ?Eb.
Qed.

Lemma truthy_row_get (r : row) (a : string) :
  truthy (row_get r a) = true <->
  exists c, PyDict.get key_eqb (Some a) r = Some c
            /\ c <> CNone /\ c <> CStr EmptyString /\ c <> CList [].
Proof.
  unfold row_get. destruct (PyDict.get key_eqb (Some a) r) as [c|]; simpl.
  - split.
    + intros H. exists c. split; [reflexivity|].
      destruct c as [|s|l]; simpl in H; try discriminate;
        [destruct s | destruct l]; try discriminate; repeat split; discriminate.
    + intros (c' & E & H1 & H2 & H3). inversion E. subst c'.
      destruct c as [|[|x s]|[|x l]]; simpl; try reflexivity; congruence.
  - split; [discriminate|]. intros (c & E & _). discriminate.
Qed.

(** C6, as the code has it. The identifier taken for a Feature is the first
    of the three spellings whose cell is there and not empty (before any
    trimming), and [properties._event_id], resp. [_expedition_id], is then
    its trimmed text. When no spelling has such a cell the synthetic key is
    not attached: the mapping holds under that name what the columns of the
    row put there, which is nothing unless the row has a column of that
    very name. *)
Theorem C6_identifiers_from_first_spelling (lat_key lon_key : string) (i : Z) (r : row) :
  let p := build_props lat_key lon_key i r in
  let cols := column_props lat_key lon_key r in
  let event_id := first_nonempty r "Event #" "Event#" "Event" in
  let expedition_id := first_nonempty r "Expedition #" "Expedition#" "Expedition" in
  (forall a b c,
     first_nonempty r a b c
     = if truthy (row_get r a) then row_get r a
       else if truthy (row_get r b) then row_get r b
       else row_get r c)
  /\ (forall a, truthy (row_get r a) = true <->
                exists c, PyDict.get key_eqb (Some a) r = Some c
                          /\ c <> CNone /\ c <> CStr EmptyString /\ c <> CList [])
  /\ (truthy event_id = true ->
      PyDict.get key_eqb (Some "_event_id"%string) p
      = Some (VStr (PyStr.strip (str event_id))))
  /\ (truthy expedition_id = true ->
      PyDict.get key_eqb (Some "_expedition_id"%string) p
      = Some (VStr (PyStr.strip (str expedition_id))))
  /\ (truthy event_id = false ->
      PyDict.get key_eqb (Some "_event_id"%string) p
      = PyDict.get key_eqb (Some "_event_id"%string) cols)
  /\ (truthy expedition_id = false ->
      PyDict.get key_eqb (Some "_expedition_id"%string) p
      = PyDict.get key_eqb (Some "_expedition_id"%string) cols)
  /\ (forall name, ~ In (Some name) (PyDict.keys r) ->
                   PyDict.get key_eqb (Some name) cols = None).
Proof.
  intros p cols event_id expedition_id.
  split; [apply first_nonempty_eq|].
  split; [apply truthy_row_get|].
  subst p. unfold build_props. fold cols. fold (first_nonempty r "Event #" "Event#" "Event").
  fold (first_nonempty r "Expedition #" "Expedition#" "Expedition").
  fold event_id. fold expedition_id. unfold set_id.
  repeat split.
  - intros He. rewrite He.
    destruct (truthy expedition_id);
      rewrite ?(get_set_other _ (Some "_event_id"%string) (Some "_expedition_id"%string))
        by discriminate;
      apply get_set_same.
  - intros He. rewrite He. apply get_set_same.
  - intros He. rewrite He.
    destruct (truthy expedition_id);
      rewrite ?(get_set_other _ (Some "_event_id"%string) (Some "_expedition_id"%string))
        by discriminate;
      apply get_set_other; discriminate.
  - intros He. rewrite He.
    destruct (truthy event_id);
      rewrite ?(get_set_other _ (Some "_expedition_id"%string) (Some "_event_id"%string))
        by discriminate;
      apply get_set_other; discriminate.
  - intros name. apply column_props_absent.
Qed.

(** C6, as the specification has it, fails: in a table with a column named
    ["_event_id"] and none of the three event spellings, no spelling has a
    value, yet the Feature written has the key [_event_id]. *)
Lemma C6_counterexample_column_named_like_key :
  let r := Csv.dict_row ["Latitude"; "Longitude"; "_event_id"] ["30.27"; "-97.74"; "x"] in
  Csv.rows collision_records = [r]
  /\ row_get r "Event #" = CNone
  /\ row_get r "Event#" = CNone
  /\ row_get r "Event" = CNone
  /\ exists f,
       written (main collision_directory)
       = Some {| geojson_type := "FeatureCollection"; geojson_features := [f] |}
       /\ PyDict.get key_eqb (Some "_event_id"%string) (properties f) = Some (VStr "x").
Proof.
  repeat split; try reflexivity.
  eexists. split; vm_compute; reflexivity.
Qed.

(** ** Fatal setup conditions *)

Lemma find_input_file_None (fs : directory) :
  find_input_file fs = None <-> forall n, In n INPUT_CANDIDATES -> fs n = None.
Proof.
  unfold find_input_file. induction INPUT_CANDIDATES as [|c l IH]; simpl.
  - split; [intros _ n [] | reflexivity].
  - unfold path_exists at 1. destruct (fs c) eqn:E.
    + split; [discriminate|]. intros H. rewrite (H c) in E by auto. discriminate.
    + rewrite IH. split.
      * intros H n [<-|Hn]; auto.
      * intros H n Hn. apply H. auto.
Qed.

(** C7. Each fatal setup condition ends the run with the exit status 1 and
    without a document written: when no candidate file exists (each candidate
    name is then listed), when the file has no header row, and when the
    latitude or the longitude alias does not resolve (the header names found
    are then printed). In every run the status is 1 exactly when no document
    is written. *)
Theorem C7_fatal_setup_conditions (fs : directory) :
  ((forall n, In n INPUT_CANDIDATES -> fs n = None) ->
     exit_status (main fs) = 1 /\ written (main fs) = None
     /\ forall n, In n INPUT_CANDIDATES -> In (" - " ++ n)%string (stdout (main fs)))
  /\ (forall in_file records,
        find_input_file fs = Some in_file -> fs in_file = Some records ->
        Csv.fieldnames records = None \/ Csv.fieldnames records = Some [] ->
        exit_status (main fs) = 1 /\ written (main fs) = None)
  /\ (forall in_file records names,
        find_input_file fs = Some in_file -> fs in_file = Some records ->
        Csv.fieldnames records = Some names -> names <> [] ->
        pick_header names (HEADER_ALIASES "latitude") = None
        \/ pick_header names (HEADER_ALIASES "longitude") = None ->
        exit_status (main fs) = 1 /\ written (main fs) = None
        /\ In ("Found headers: " ++ PyStr.repr_list names)%string (stdout (main fs)))
  /\ (exit_status (main fs) = 1 <-> written (main fs) = None).
Proof.
  split; [|split; [|split]].
  - intros H. apply find_input_file_None in H. unfold main. rewrite H.
    repeat split. intros n Hn. unfold fatal. cbn [stdout]. right.
    apply (in_map (fun n => " - " ++ n)%string). exact Hn.
  - intros in_file records Hf Hr Hn. unfold main. rewrite Hf, Hr.
    destruct Hn as [-> | ->]; split; reflexivity.
  - intros in_file records names Hf Hr Hn Hne Hp. unfold main. rewrite Hf, Hr, Hn.
    destruct names as [|h names]; [congruence|].
    destruct Hp as [Hp|Hp]; rewrite Hp.
    + repeat split. simpl. auto.
    + destruct (pick_header (h :: names) (HEADER_ALIASES "latitude"));
        repeat split; simpl; auto.
  - destruct (main_cases fs) as [(records & lat_key & lon_key & H) | [H1 H2]].
    + rewrite (main_resolves _ _ _ _ H). simpl. split; discriminate.
    + rewrite H1, H2. tauto.
Qed.

(** ** The document *)

Lemma enumerate_sorted {A : Type} (l : list A) : forall a,
  StronglySorted Z.lt (map fst (enumerate a l)).
Proof.
  induction l as [|x l IH]; intros a; simpl; constructor.
  - apply IH.
  - apply Forall_forall. intros i Hi. apply in_map_iff in Hi.
    destruct Hi as [[j y] [<- Hin]]. apply enumerate_In in Hin.
    destruct Hin as [n [_ ->]]. simpl. lia.
Qed.

Lemma sorted_map_filter {A : Type} (g : A -> Z) (p : A -> bool) (l : list A) :
  StronglySorted Z.lt (map g l) -> StronglySorted Z.lt (map g (filter p l)).
Proof.
  induction l as [|x l IH]; simpl; intros H; [constructor|].
  inversion H as [|? ? Hs Hall]. subst.
  destruct (p x); simpl; [|auto].
  constructor; [auto|].
  rewrite Forall_forall in *. intros i Hi. apply Hall.
  apply in_map_iff in Hi. destruct Hi as [y [<- Hy]].
  apply filter_In in Hy. apply in_map. tauto.
Qed.

Lemma features_ordinals lat_key lon_key (l : list (Z * row)) :
  map feature_row (flat_map (row_feature lat_key lon_key) l)
  = map (fun i => Some (VInt i))
        (map fst (filter (fun ir => has_coordinates lat_key lon_key (snd ir)) l)).
Proof.
  induction l as [|ir l IH]; simpl; [reflexivity|].
  rewrite map_app, IH. unfold row_feature, has_coordinates.
  destruct (to_float (row_get (snd ir) lat_key)), (to_float (row_get (snd ir) lon_key));
    simpl; try reflexivity.
  f_equal. apply build_props_row.
Qed.

(** ** Further properties of the script *)

(** *** The input file *)

Lemma first_existing_Some (fs : directory) (names : list string) (name : string) :
  first_existing fs names = Some name <->
  exists pre post, names = pre ++ name :: post
                   /\ fs name <> None
                   /\ forall n, In n pre -> fs n = None.
Proof.
  induction names as [|c names IH]; simpl.
  - split; [discriminate|]. intros (pre & post & H & _). now destruct pre.
  - unfold path_exists at 1. destruct (fs c) as [recs|] eqn:E.
    + split.
      * intros H. inversion H. subst c. exists [], names. simpl.
        repeat split; [congruence | tauto].
      * intros (pre & post & H & Hn & Hpre). destruct pre as [|y pre]; simpl in H.
        -- congruence.
        -- inversion H. subst y. rewrite (Hpre c) in E by (simpl; auto). discriminate.
    + rewrite IH. split.
      * intros (pre & post & -> & Hn & Hpre). exists (c :: pre), post.
        simpl. repeat split; auto. intros n [<-|Hn']; auto.
      * intros (pre & post & H & Hn & Hpre). destruct pre as [|y pre]; simpl in H.
        -- inversion H. subst c. contradiction.
        -- inversion H. subst. exists pre, post. repeat split; auto.
           intros n Hn'. apply Hpre. simpl. auto.
Qed.

(** X1. The input file is the first candidate name, in the declared order,
    under which a file exists. A run reads that file and nothing else: it is
    the run of a directory that holds this one file, so a file under the
    second name is ignored as soon as there is one under the first. *)
Theorem X1_first_candidate_decides (fs : directory) :
  (forall name,
     find_input_file fs = Some name <->
     exists pre post, INPUT_CANDIDATES = pre ++ name :: post
                      /\ fs name <> None
                      /\ forall n, In n pre -> fs n = None)
  /\ (forall name records,
        find_input_file fs = Some name -> fs name = Some records ->
        main fs = main (directory_with name records)).
Proof.
  split; [intros name; apply first_existing_Some|].
  intros name records Hf Hr.
  assert (Hc : In name INPUT_CANDIDATES).
  { apply first_existing_Some in Hf. destruct Hf as (pre & post & -> & _).
    apply in_or_app. right. now left. }
  assert (Hf' : find_input_file (directory_with name records) = Some name).
  { unfold find_input_file, INPUT_CANDIDATES, first_existing, path_exists, directory_with.
    destruct Hc as [<-|[<-|[]]]; reflexivity. }
  unfold main. rewrite Hf, Hf', Hr.
  unfold directory_with. rewrite String.eqb_refl. reflexivity.
Qed.

(** *** Header resolution *)

Lemma mem_ext (a : string) (l l' : list string) :
  (forall x, In x l <-> In x l') -> mem a l = mem a l'.
Proof.
  intros H. destruct (mem a l) eqn:E, (mem a l') eqn:E'; try reflexivity.
  - apply mem_In, H, mem_In in E. congruence.
  - apply mem_In, H, mem_In in E'. congruence.
Qed.

(** X2. Which alias is picked depends on which column names there are, not
    on their order in the header nor on how often they occur. *)
Theorem X2_pick_header_by_membership (names names' aliases : list string) :
  (forall x, In x names <-> In x names') ->
  pick_header names aliases = pick_header names' aliases.
Proof.
  intros H. induction aliases as [|a aliases IH]; simpl; [reflexivity|].
  rewrite (mem_ext a names names' H), IH. reflexivity.
Qed.

Lemma X2_pick_header_by_membership_witness :
  pick_header ["City"; "Lat"; "Latitude"] (HEADER_ALIASES "latitude")
  = pick_header ["Latitude"; "Lat"; "City"; "Lat"] (HEADER_ALIASES "latitude").
Proof.
  apply (X2_pick_header_by_membership
           ["City"; "Lat"; "Latitude"] ["Latitude"; "Lat"; "City"; "Lat"]).
  intros x. simpl. tauto.
Defined.

(** *** Coercion *)

(** X3. Integer coercion gives nothing exactly when float coercion gives
    nothing or gives an infinity or a NaN: the two failures of [int(float(s))]
    end the same way, and an integer always comes from a finite float. *)
Theorem X3_to_int_fails_on_non_finite (val : cell) :
  (to_int val = None <->
   to_float val = None
   \/ to_float val = Some S754_nan
   \/ exists sign, to_float val = Some (S754_infinity sign))
  /\ (forall z, to_int val = Some z ->
                exists x, to_float val = Some x
                          /\ PyFloat.to_Q x <> None
                          /\ PyFloat.trunc x = Some z).
Proof.
  rewrite to_int_to_float.
  destruct (to_float val) as [[sign|sign| |sign m e]|]; simpl; split.
  - split; [discriminate|].
    intros [H|[H|[s H]]]; discriminate.
  - intros z Hz. eexists. repeat split; [discriminate | exact Hz].
  - split; [intros _; right; right; now exists sign | reflexivity].
  - discriminate.
  - split; [intros _; right; now left | reflexivity].
  - discriminate.
  - split; [discriminate|].
    intros [H|[H|[s H]]]; discriminate.
  - intros z Hz. eexists. repeat split; [discriminate | exact Hz].
  - split; [intros _; now left | reflexivity].
  - discriminate.
Qed.

(** *** The loop over the rows *)

Lemma flat_map_length_split lat_key lon_key (l : list (Z * row)) :
  (List.length (flat_map (row_feature lat_key lon_key) l)
   + List.length (flat_map (row_diagnostic lat_key lon_key) l))%nat
  = List.length l.
Proof.
  induction l as [|ir l IH]; simpl; [reflexivity|].
  rewrite !length_app, <- IH.
  unfold row_feature, row_diagnostic, has_coordinates.
  destruct (to_float (row_get (snd ir) lat_key)), (to_float (row_get (snd ir) lon_key));
    simpl; lia.
Qed.

Lemma enumerate_length {A : Type} (l : list A) : forall a,
  List.length (enumerate a l) = List.length l.
Proof. induction l as [|x l IH]; intros a; simpl; auto. Qed.

Lemma diagnostics_length lat_key lon_key (l : list (Z * row)) :
  List.length (flat_map (row_diagnostic lat_key lon_key) l)
  = List.length (filter (fun ir => negb (has_coordinates lat_key lon_key (snd ir))) l).
Proof.
  induction l as [|ir l IH]; simpl; [reflexivity|].
  rewrite length_app, IH. unfold row_diagnostic.
  destruct (has_coordinates lat_key lon_key (snd ir)); reflexivity.
Qed.

(** X4. Every row ends either as a Feature or as a skip: at the end of the
    loop the number of Features and the skip counter add up to the number of
    rows, and one diagnostic line was printed per skip. *)
Theorem X4_features_and_skips_partition_rows (lat_key lon_key : string) (rows : list row) :
  let st := run_loop lat_key lon_key rows in
  Z.of_nat (List.length (features st)) + skipped st = Z.of_nat (List.length rows)
  /\ Z.of_nat (List.length (printed st)) = skipped st
  /\ 0 <= skipped st <= Z.of_nat (List.length rows).
Proof.
  intros st. subst st. unfold run_loop.
  rewrite loop_features, loop_printed, loop_skipped. simpl.
  rewrite <- diagnostics_length.
  pose proof (flat_map_length_split lat_key lon_key (enumerate 1 rows)) as H.
  rewrite enumerate_length in H. lia.
Qed.

Lemma enumerate_app {A : Type} (l1 l2 : list A) : forall a,
  enumerate a (l1 ++ l2)
  = enumerate a l1 ++ enumerate (a + Z.of_nat (List.length l1)) l2.
Proof.
  induction l1 as [|x l1 IH]; intros a; simpl.
  - now rewrite Z.add_0_r.
  - rewrite IH. do 3 f_equal. lia.
Qed.

(** X5. The loop works row by row: on a table continued by more rows it
    gives the Features, the skips and the lines of the table first, then
    those of the further rows, numbered on from where the table ended.
    Nothing a later row holds changes what an earlier row gave. *)
Theorem X5_loop_over_appended_rows (lat_key lon_key : string) (rows more : list row) :
  let st := run_loop lat_key lon_key (rows ++ more) in
  let st1 := run_loop lat_key lon_key rows in
  let st2 := fold_left (process_row lat_key lon_key)
                       (enumerate (1 + Z.of_nat (List.length rows)) more)
                       initial_state in
  features st = features st1 ++ features st2
  /\ skipped st = skipped st1 + skipped st2
  /\ printed st = printed st1 ++ printed st2.
Proof.
  intros st st1 st2. subst st st1 st2. unfold run_loop.
  rewrite enumerate_app, fold_left_app.
  rewrite !loop_features, !loop_skipped, !loop_printed. simpl.
  repeat split; lia.
Qed.

(** X6. Every Feature of the loop has the type ["Feature"], a geometry of
    type ["Point"] with two coordinates, and under [_row] the ordinal of a
    row of the table, between 1 and the number of rows. *)
Theorem X6_feature_shape (lat_key lon_key : string) (rows : list row) (f : feature) :
  In f (features (run_loop lat_key lon_key rows)) ->
  feature_type f = "Feature"%string
  /\ geometry_type (feature_geometry f) = "Point"%string
  /\ List.length (coordinates (feature_geometry f)) = 2%nat
  /\ exists i, feature_row f = Some (VInt i) /\ 1 <= i <= Z.of_nat (List.length rows).
Proof.
  intros Hin. apply features_In in Hin. destruct Hin as (n & r & Hn & Hf).
  apply row_feature_In in Hf. destruct Hf as (_ & Hrow & lat & lon & _ & _ & ->).
  simpl in *. repeat split.
  exists (Z.of_nat n + 1). split; [exact Hrow|].
  assert (n < List.length rows)%nat by (apply nth_error_Some; congruence). lia.
Qed.

Lemma X6_feature_shape_witness :
  exists f, In f (features (run_loop "Latitude" "Longitude" (Csv.rows sample_records)))
            /\ feature_type f = "Feature"%string.
Proof.
  eexists. split; [vm_compute; left; reflexivity|].
  apply (X6_feature_shape "Latitude" "Longitude" (Csv.rows sample_records)).
  vm_compute. left. reflexivity.
Defined.

(** *** Trimming *)

Lemma lstrip_all (p : ascii -> bool) (s : string) :
  all_chars p s = true -> PyStr.lstrip p s = EmptyString.
Proof.
  induction s as [|c s IH]; simpl; [reflexivity|].
  intros H. apply andb_prop in H. destruct H as [Hc Hs]. now rewrite Hc, IH.
Qed.

Lemma rstrip_all (p : ascii -> bool) (s : string) :
  all_chars p s = true -> PyStr.rstrip p s = EmptyString.
Proof.
  induction s as [|c s IH]; simpl; [reflexivity|].
  intros H. apply andb_prop in H. destruct H as [Hc Hs]. now rewrite IH, Hc.
Qed.

Lemma lstrip_app (p : ascii -> bool) (s t : string) :
  PyStr.lstrip p (s ++ t)%string
  = if all_chars p s then PyStr.lstrip p t else (PyStr.lstrip p s ++ t)%string.
Proof.
  induction s as [|c s IH]; simpl; [reflexivity|].
  destruct (p c); simpl; [exact IH | reflexivity].
Qed.

Lemma rstrip_app_all (p : ascii -> bool) (s post : string) :
  all_chars p post = true -> PyStr.rstrip p (s ++ post)%string = PyStr.rstrip p s.
Proof.
  intros H. induction s as [|c s IH]; simpl.
  - now apply rstrip_all.
  - now rewrite IH.
Qed.

Lemma strip_with_pad (p : ascii -> bool) (pre s post : string) :
  all_chars p pre = true -> all_chars p post = true ->
  PyStr.strip_with p (pre ++ s ++ post)%string = PyStr.strip_with p s.
Proof.
  intros Hpre Hpost. unfold PyStr.strip_with.
  rewrite lstrip_app, Hpre, lstrip_app.
  destruct (all_chars p s) eqn:Es.
  - now rewrite (lstrip_all p post), (lstrip_all p s).
  - now apply rstrip_app_all.
Qed.

Lemma lstrip_idem (p : ascii -> bool) (s : string) :
  PyStr.lstrip p (PyStr.lstrip p s) = PyStr.lstrip p s.
Proof.
  induction s as [|c s IH]; simpl; [reflexivity|].
  destruct (p c) eqn:E; [exact IH|]. simpl. now rewrite E.
Qed.

Lemma rstrip_idem (p : ascii -> bool) (s : string) :
  PyStr.rstrip p (PyStr.rstrip p s) = PyStr.rstrip p s.
Proof.
  induction s as [|c s IH]; simpl; [reflexivity|].
  destruct (PyStr.rstrip p s) as [|d r] eqn:Er.
  - destruct (p c) eqn:E; simpl; [reflexivity | now rewrite E].
  - change (PyStr.rstrip p (String c (String d r))) with
      (match PyStr.rstrip p (String d r) with
       | EmptyString => if p c then EmptyString else String c EmptyString
       | String _ _ as r0 => String c r0
       end).
    now rewrite IH.
Qed.

Lemma lstrip_rstrip (p : ascii -> bool) (t : string) :
  PyStr.lstrip p t = t -> PyStr.lstrip p (PyStr.rstrip p t) = PyStr.rstrip p t.
Proof.
  destruct t as [|c t]; [reflexivity|]. simpl.
  destruct (p c) eqn:E.
  - intros H. exfalso.
    assert (L : forall s, (String.length (PyStr.lstrip p s) <= String.length s)%nat).
    { induction s as [|x s IH]; simpl; [lia|]. destruct (p x); simpl; lia. }
    specialize (L t). rewrite H in L. simpl in L. lia.
  - intros _. destruct (PyStr.rstrip p t); simpl; now rewrite E.
Qed.

Lemma strip_with_idem (p : ascii -> bool) (s : string) :
  PyStr.strip_with p (PyStr.strip_with p s) = PyStr.strip_with p s.
Proof.
  unfold PyStr.strip_with.
  rewrite (lstrip_rstrip p (PyStr.lstrip p s)) by apply lstrip_idem.
  apply rstrip_idem.
Qed.

(** X7. White space around a cell does not count: a text padded on both
    sides with white space coerces, as a float, as an integer and under the
    dispatch rule of any column, to what the text itself coerces to. *)
Theorem X7_padding_ignored (pre s post : string) :
  blank pre = true -> blank post = true ->
  let padded := CStr (pre ++ s ++ post)%string in
  to_float padded = to_float (CStr s)
  /\ to_int padded = to_int (CStr s)
  /\ forall k, to_number_if_possible k padded = to_number_if_possible k (CStr s).
Proof.
  intros Hpre Hpost padded. subst padded.
  assert (E : PyStr.strip (pre ++ s ++ post)%string = PyStr.strip s)
    by (now apply strip_with_pad).
  unfold to_float, to_int, to_number_if_possible, str. rewrite E. auto.
Qed.

Lemma X7_padding_ignored_witness :
  to_int (CStr (" " ++ "42" ++ "  ")%string) = to_int (CStr "42").
Proof.
  apply (X7_padding_ignored " " "42" "  "); reflexivity.
Defined.

(** X8. A text that the dispatch rule stores is trimmed and not empty:
    trimming it again changes nothing. *)
Theorem X8_stored_text_is_trimmed (k : key) (val : cell) (s : string) :
  to_number_if_possible k val = VStr s ->
  PyStr.strip s = s /\ s <> EmptyString.
Proof.
  unfold to_number_if_possible.
  destruct val as [|t|l]; [discriminate| |];
    match goal with
    | |- context [PyStr.is_empty ?u] =>
        destruct (PyStr.is_empty u) eqn:Eu; [discriminate|];
        assert (Hne : u <> EmptyString) by (rewrite <- is_empty_true; congruence);
        assert (Hid : PyStr.strip u = u) by apply strip_with_idem
    end;
    repeat match goal with
           | |- context [if ?b then _ else _] => destruct b
           | |- context [match ?o with Some _ => _ | None => _ end] => destruct o
           end;
    intros H; inversion H; subst; auto.
Qed.

Lemma X8_stored_text_is_trimmed_witness :
  PyStr.strip "Austin" = "Austin"%string /\ "Austin"%string <> EmptyString.
Proof.
  apply (X8_stored_text_is_trimmed (Some "City"%string) (CStr "  Austin ") "Austin").
  reflexivity.
Defined.

(** *** The properties of a Feature *)

Lemma column_props_not_coordinate lat_key lon_key (r : row) (k : key) :
  is_coordinate lat_key lon_key k = true ->
  PyDict.get key_eqb k (column_props lat_key lon_key r) = None.
Proof.
  intros Hc. apply get_None_iff. unfold column_props.
  assert (G : forall p : props,
             In k (PyDict.keys (fold_left (add_column lat_key lon_key) r p)) ->
             In k (PyDict.keys p)).
  { induction r as [|[k0 v0] r IH]; intros p; simpl; [auto|].
    intros H. apply IH in H. unfold add_column in H. simpl in H.
    destruct (is_coordinate lat_key lon_key k0) eqn:E0; [assumption|].
    rewrite keys_set in H.
    destruct (existsb (key_eqb k0) (PyDict.keys p)); [assumption|].
    apply in_app_or in H. destruct H as [H|[H|[]]]; [assumption|].
    subst k0. congruence. }
  intros H. apply G in H. destruct H.
Qed.

Lemma build_props_not_coordinate lat_key lon_key (i : Z) (r : row) (k : key) :
  is_coordinate lat_key lon_key k = true ->
  k <> Some "_row"%string -> k <> Some "_event_id"%string ->
  k <> Some "_expedition_id"%string ->
  PyDict.get key_eqb k (build_props lat_key lon_key i r) = None.
Proof.
  intros Hc H1 H2 H3. unfold build_props, set_id.
  repeat match goal with
         | |- context [if ?b then _ else _] => destruct b
         end;
    rewrite ?get_set_other by assumption;
    now apply column_props_not_coordinate.
Qed.

Lemma pick_header_In names aliases a :
  pick_header names aliases = Some a -> In a aliases /\ In a names.
Proof.
  intros H. apply pick_header_Some in H. destruct H as (pre & post & -> & Ha & _).
  split; [apply in_or_app; right; now left | assumption].
Qed.

Lemma alias_not_synthetic (field a : string) :
  In a (HEADER_ALIASES field) ->
  Some a <> Some "_row"%string /\ Some a <> Some "_event_id"%string
  /\ Some a <> Some "_expedition_id"%string.
Proof.
  unfold HEADER_ALIASES.
  destruct (String.eqb field "latitude"); [|destruct (String.eqb field "longitude")];
    simpl; intros H;
    repeat (destruct H as [<-|H]; [repeat split; discriminate|]); destruct H.
Qed.

(** X9. The two coordinate columns are left out of the properties: in a
    document written, no Feature has the latitude or the longitude column
    name among the keys of its properties. *)
Theorem X9_coordinates_not_in_properties
    (fs : directory) (records : list (list string)) (lat_key lon_key : string)
    (doc : geojson) (f : feature) :
  resolves fs records lat_key lon_key ->
  written (main fs) = Some doc ->
  In f (geojson_features doc) ->
  PyDict.get key_eqb (Some lat_key) (properties f) = None
  /\ PyDict.get key_eqb (Some lon_key) (properties f) = None.
Proof.
  intros Hres Hw Hin.
  assert (Hres' := Hres).
  destruct Hres' as (in_file & names & _ & _ & _ & Hlat & Hlon).
  apply pick_header_In in Hlat. apply pick_header_In in Hlon.
  destruct Hlat as [Hlat _]. destruct Hlon as [Hlon _].
  apply alias_not_synthetic in Hlat. apply alias_not_synthetic in Hlon.
  rewrite (main_resolves _ _ _ _ Hres) in Hw.
  unfold completed in Hw. cbn [written] in Hw. inversion Hw. subst doc. clear Hw.
  cbn [geojson_features] in Hin. apply features_In in Hin.
  destruct Hin as (n & r & _ & Hf). apply row_feature_In in Hf.
  destruct Hf as (_ & _ & lat & lon & _ & _ & ->). cbn [properties build_feature].
  split; apply build_props_not_coordinate; try tauto; unfold is_coordinate;
    rewrite key_eqb_refl; auto using orb_true_r.
Qed.

Lemma X9_coordinates_not_in_properties_witness :
  exists doc f,
    written (main sample_directory) = Some doc
    /\ In f (geojson_features doc)
    /\ PyDict.get key_eqb (Some "Latitude"%string) (properties f) = None.
Proof.
  do 2 eexists. split; [vm_compute; reflexivity|].
  split; [left; reflexivity|].
  apply (X9_coordinates_not_in_properties sample_directory sample_records
           "Latitude" "Longitude" _ _ sample_resolves eq_refl).
  left. reflexivity.
Defined.

Lemma strip_blank (s : string) : blank s = true -> PyStr.strip s = EmptyString.
Proof.
  intros H. unfold PyStr.strip, PyStr.strip_with.
  now rewrite (lstrip_all _ _ H).
Qed.

(** X10. An event number of white space only counts as a value when the
    identifier is chosen, since it is not the empty text, and is trimmed
    afterwards: the Feature gets [_event_id] equal to the empty text, while
    the dispatch rule gives null for the same cell. *)
Theorem X10_blank_event_number (lat_key lon_key : string) (i : Z) (r : row) (s : string) :
  row_get r "Event #" = CStr s -> s <> EmptyString -> blank s = true ->
  PyDict.get key_eqb (Some "_event_id"%string) (build_props lat_key lon_key i r)
  = Some (VStr EmptyString)
  /\ to_number_if_possible (Some "Event #"%string) (CStr s) = VNone.
Proof.
  intros Hr Hs Hb. split.
  - unfold build_props, py_or. rewrite Hr.
    assert (Ht : truthy (CStr s) = true) by (destruct s; [congruence | reflexivity]).
    rewrite Ht. simpl (truthy (if true then _ else _)). rewrite Ht.
    unfold set_id at 2. rewrite Ht. simpl (str (CStr s)). rewrite (strip_blank s Hb).
    unfold set_id.
    match goal with
    | |- context [if ?b then _ else _] => destruct b
    end;
      rewrite ?(get_set_other _ (Some "_event_id"%string) (Some "_expedition_id"%string))
        by discriminate;
      apply get_set_same.
  - unfold to_number_if_possible. simpl (str (CStr s)). now rewrite (strip_blank s Hb).
Qed.

Lemma X10_blank_event_number_witness :
  PyDict.get key_eqb (Some "_event_id"%string)
    (build_props "Latitude" "Longitude" 1 [(Some "Event #"%string, CStr " ")])
  = Some (VStr EmptyString)
  /\ to_number_if_possible (Some "Event #"%string) (CStr " ") = VNone.
Proof.
  apply (X10_blank_event_number "Latitude" "Longitude" 1
           [(Some "Event #"%string, CStr " ")] " ");
    [reflexivity | discriminate | reflexivity].
Defined.

(** *** Records shorter or longer than the header *)

Lemma fold_blank_get_other (l : list string) (k : key) : forall d : row,
  ~ In k (map Some l) ->
  PyDict.get key_eqb k (fold_left (fun d x => PyDict.set key_eqb (Some x) CNone d) l d)
  = PyDict.get key_eqb k d.
Proof.
  induction l as [|x l IH]; intros d Hk; simpl in *; [reflexivity|].
  rewrite IH by tauto. apply get_set_other. intros ->. tauto.
Qed.

Lemma fold_blank_get (l : list string) (name : string) : forall d : row,
  In name l ->
  PyDict.get key_eqb (Some name)
    (fold_left (fun d x => PyDict.set key_eqb (Some x) CNone d) l d)
  = Some CNone.
Proof.
  induction l as [|x l IH]; intros d Hin; simpl in *; [tauto|].
  destruct (in_dec string_dec name l) as [Hl|Hl]; [now apply IH|].
  destruct Hin as [->|Hin]; [|contradiction].
  rewrite fold_blank_get_other.
  - apply get_set_same.
  - intros H. apply in_map_iff in H. destruct H as [y [E Hy]]. inversion E. now subst.
Qed.

Lemma dict_row_missing_cell (names cells : list string) (name : string) :
  In name (skipn (List.length cells) names) ->
  row_get (Csv.dict_row names cells) name = CNone.
Proof.
  intros Hin. unfold row_get, Csv.dict_row.
  assert (Hlen : (List.length cells < List.length names)%nat).
  { destruct (Nat.lt_ge_cases (List.length cells) (List.length names)) as [H|H];
      [assumption|].
    rewrite skipn_all2 in Hin by assumption. destruct Hin. }
  destruct (List.length names <? List.length cells)%nat eqn:E1;
    [apply Nat.ltb_lt in E1; lia|].
  destruct (List.length cells <? List.length names)%nat eqn:E2;
    [|apply Nat.ltb_ge in E2; lia].
  now rewrite fold_blank_get.
Qed.

(** X11. A record that ends before the latitude or the longitude column has
    no cell there, so its row is skipped: the loop body adds no Feature,
    adds one to the skip counter and prints one line. *)
Theorem X11_short_record_is_skipped
    (names cells : list string) (lat_key lon_key : string) (st : loop_state) (i : Z) :
  In lat_key (skipn (List.length cells) names)
  \/ In lon_key (skipn (List.length cells) names) ->
  let r := Csv.dict_row names cells in
  let st' := process_row lat_key lon_key st (i, r) in
  features st' = features st
  /\ skipped st' = skipped st + 1
  /\ printed st' = printed st ++ [skip_line lat_key lon_key i r].
Proof.
  intros H r st'. subst st'.
  assert (Hc : has_coordinates lat_key lon_key r = false).
  { apply has_coordinates_false. subst r.
    destruct H as [H|H]; [left | right]; now rewrite (dict_row_missing_cell _ _ _ H). }
  rewrite process_row_features, process_row_printed, process_row_skipped.
  unfold row_feature, row_diagnostic. cbn [fst snd]. rewrite Hc.
  unfold has_coordinates in Hc.
  destruct (to_float (row_get r lat_key)), (to_float (row_get r lon_key));
    try discriminate; rewrite ?app_nil_r; auto.
Qed.

Lemma X11_short_record_is_skipped_witness :
  skipped (process_row "Latitude" "Longitude" initial_state
             (1, Csv.dict_row ["City"; "Latitude"; "Longitude"] ["Austin"; "30.27"]))
  = 1.
Proof.
  apply (X11_short_record_is_skipped ["City"; "Latitude"; "Longitude"] ["Austin"; "30.27"]
           "Latitude" "Longitude" initial_state 1).
  right. simpl. auto.
Defined.

Lemma rstrip_app_last (p : ascii -> bool) (y : string) (c : ascii) :
  p c = false ->
  PyStr.rstrip p (y ++ String c EmptyString)%string = (y ++ String c EmptyString)%string.
Proof.
  intros Hc. induction y as [|d y IH]; simpl.
  - now rewrite Hc.
  - rewrite IH. now destruct y.
Qed.

Lemma strip_repr_list (l : list string) :
  PyStr.strip (PyStr.repr_list l) = PyStr.repr_list l.
Proof.
  unfold PyStr.repr_list, PyStr.strip, PyStr.strip_with.
  set (x := PyStr.join ", " (map PyStr.repr l)).
  change ("[" ++ x ++ "]")%string with (String "[" x ++ String "]" EmptyString)%string.
  change (PyStr.lstrip PyStr.isspace (String "[" x ++ String "]" EmptyString)%string)
    with (String "[" x ++ String "]" EmptyString)%string.
  now apply rstrip_app_last.
Qed.

Lemma get_In {V : Type} (d : @PyDict.dict key V) (k : key) (v : V) :
  PyDict.get key_eqb k d = Some v -> In (k, v) d.
Proof.
  induction d as [|[k' v'] d IH]; simpl; [discriminate|].
  destruct (key_eqb k k') eqn:E.
  - apply key_eqb_eq in E. intros H. inversion H. subst. now left.
  - intros H. right. now apply IH.
Qed.

(** X12. The cells of a record beyond the last column are not dropped: the
    reader files them as a list under the key [None], and the Feature keeps,
    under that key, the text of the list. *)
Theorem X12_surplus_cells_kept_as_text
    (names cells : list string) (lat_key lon_key : string) (i : Z) :
  (List.length names < List.length cells)%nat ->
  PyDict.get key_eqb None (build_props lat_key lon_key i (Csv.dict_row names cells))
  = Some (VStr (PyStr.repr_list (skipn (List.length names) cells))).
Proof.
  intros Hlen.
  set (r := Csv.dict_row names cells).
  set (l := skipn (List.length names) cells).
  assert (Hget : PyDict.get key_eqb None r = Some (CList l)).
  { subst r l. unfold Csv.dict_row. apply Nat.ltb_lt in Hlen. rewrite Hlen.
    apply get_set_same. }
  assert (Hcol : PyDict.get key_eqb None (column_props lat_key lon_key r)
                 = Some (to_number_if_possible None (CList l))).
  { apply column_props_get; [apply dict_row_NoDup | now apply get_In | reflexivity]. }
  assert (Hv : to_number_if_possible None (CList l) = VStr (PyStr.repr_list l)).
  { unfold to_number_if_possible. cbn [str]. rewrite strip_repr_list. reflexivity. }
  rewrite Hv in Hcol. unfold build_props, set_id.
  repeat match goal with
         | |- context [if ?b then _ else _] => destruct b
         end;
    rewrite ?get_set_other by discriminate; exact Hcol.
Qed.

Lemma X12_surplus_cells_kept_as_text_witness :
  PyDict.get key_eqb None
    (build_props "Latitude" "Longitude" 1
       (Csv.dict_row ["Latitude"; "Longitude"] ["30.27"; "-97.74"; "a"; "b"]))
  = Some (VStr "['a', 'b']").
Proof.
  apply (X12_surplus_cells_kept_as_text ["Latitude"; "Longitude"]
           ["30.27"; "-97.74"; "a"; "b"] "Latitude" "Longitude" 1).
  simpl. lia.
Defined.

(** *** Integers in decimal *)

Lemma pow2_small (n : Z) : n < 1 -> 2 ^ n <= 1.
Proof.
  intros H. destruct (Z.eq_dec n 0) as [->|Hn]; [simpl; lia|].
  rewrite Z.pow_neg_r; lia.
Qed.

Lemma Zdigits2_double (x : Z) : 0 < x -> Zdigits2 (2 * x) = Zdigits2 x + 1.
Proof.
  destruct x as [|p|p]; try lia. intros _. simpl. lia.
Qed.

Lemma Zdigits2_mul_pow2 (x n : Z) :
  0 < x -> 0 <= n -> Zdigits2 (x * 2 ^ n) = Zdigits2 x + n.
Proof.
  intros Hx Hn. revert n Hn. apply natlike_ind.
  - rewrite Z.mul_1_r. lia.
  - intros n Hn IH. rewrite Z.pow_succ_r by assumption.
    replace (x * (2 * 2 ^ n)) with (2 * (x * 2 ^ n)) by lia.
    rewrite Zdigits2_double
      by (apply Z.mul_pos_pos; [assumption | apply Z.pow_pos_nonneg; lia]).
    lia.
Qed.

Lemma Zdigits2_bound (p : positive) : forall n, Zpos p < 2 ^ n -> Zdigits2 (Zpos p) <= n.
Proof.
  induction p as [p IH|p IH|]; intros n H.
  - assert (Hn : 1 <= n).
    { destruct (Z_lt_le_dec n 1) as [L|L]; [|assumption].
      pose proof (pow2_small n L). lia. }
    replace n with (Z.succ (n - 1)) in H by lia. rewrite Z.pow_succ_r in H by lia.
    specialize (IH (n - 1)). cbn [Zdigits2 digits2_pos] in *.
    rewrite Pos2Z.inj_succ. lia.
  - assert (Hn : 1 <= n).
    { destruct (Z_lt_le_dec n 1) as [L|L]; [|assumption].
      pose proof (pow2_small n L). lia. }
    replace n with (Z.succ (n - 1)) in H by lia. rewrite Z.pow_succ_r in H by lia.
    specialize (IH (n - 1)). cbn [Zdigits2 digits2_pos] in *.
    rewrite Pos2Z.inj_succ. lia.
  - destruct (Z_lt_le_dec n 1) as [L|L]; [|simpl; lia].
    pose proof (pow2_small n L). lia.
Qed.

(** A mantissa of 53 bits with one more bit that is zero rounds to itself. *)
Lemma round_exact (sign : bool) (q : positive) (e : Z) :
  Zdigits2 (Zpos q) = 53 -> -1074 <= e <= 971 ->
  binary_round_aux PyFloat.prec PyFloat.emax sign (Zpos q~0) (e - 1) loc_Exact
  = S754_finite sign q e.
Proof.
  intros Hd He. unfold binary_round_aux, shr_fexp.
  assert (Hd' : Zdigits2 (Zpos q~0) = 54) by (simpl in *; lia).
  rewrite Hd'.
  replace (fexp PyFloat.prec PyFloat.emax (54 + (e - 1)) - (e - 1)) with 1
    by (unfold fexp, emin, PyFloat.prec, PyFloat.emax; lia).
  cbn [shr shr_record_of_loc iter_pos shr_1 orb shr_m loc_of_shr_record round_nearest_even].
  rewrite Hd.
  replace (fexp PyFloat.prec PyFloat.emax (53 + (e - 1 + 1)) - (e - 1 + 1)) with 0
    by (unfold fexp, emin, PyFloat.prec, PyFloat.emax; lia).
  cbn [shr shr_m].
  replace (e - 1 + 1) with e by lia.
  replace (e <=? PyFloat.emax - PyFloat.prec) with true
    by (symmetry; apply Z.leb_le; unfold PyFloat.prec, PyFloat.emax; lia).
  reflexivity.
Qed.

Lemma div_eucl_1 (a : Z) : Z.div_eucl a 1 = (a, 0).
Proof.
  pose proof (Z.div_1_r a) as Hq. pose proof (Z.mod_1_r a) as Hr.
  unfold Z.div, Z.modulo in Hq, Hr. destruct (Z.div_eucl a 1) as [q r].
  simpl in *. congruence.
Qed.

(** A positive integer below [2^53] is a binary64: the conversion is exact. *)
Lemma of_ratio_exact (sign : bool) (p : positive) :
  Zpos p < 2 ^ 53 ->
  exists q e, PyFloat.of_ratio sign (Zpos p) 1 = S754_finite sign q e
              /\ e <= 0 /\ Zpos q = Zpos p * 2 ^ (- e).
Proof.
  intros Hp.
  pose proof (Zdigits2_bound p 53 Hp) as Hd.
  set (d := Zdigits2 (Zpos p)) in *.
  assert (Hd1 : 1 <= d) by (subst d; simpl; lia).
  set (x := Zpos p * 2 ^ (53 - d)).
  assert (Hx : 0 < x) by (apply Z.mul_pos_pos; [lia | apply Z.pow_pos_nonneg; lia]).
  destruct x as [|q|q] eqn:Ex; try lia.
  exists q, (d - 53).
  assert (Hq : Zdigits2 (Zpos q) = 53).
  { rewrite <- Ex. subst x. rewrite Zdigits2_mul_pow2 by lia. fold d. lia. }
  split; [|split; [lia | rewrite <- Ex; subst x; f_equal; f_equal; lia]].
  unfold PyFloat.of_ratio, SFdiv_core_binary. fold d.
  change (Zdigits2 1) with 1.
  replace (Z.min (fexp PyFloat.prec PyFloat.emax (d + 0 - (1 + 0))) (0 - 0)) with (d - 54)
    by (unfold fexp, emin, PyFloat.prec, PyFloat.emax; lia).
  replace (0 - 0 - (d - 54)) with (54 - d) by lia.
  assert (Hs : Z.shiftl (Zpos p) (54 - d) = Zpos q~0).
  { rewrite Z.shiftl_mul_pow2 by lia.
    replace (54 - d) with (Z.succ (53 - d)) by lia.
    rewrite Z.pow_succ_r by lia.
    replace (Zpos p * (2 * 2 ^ (53 - d))) with (2 * (Zpos p * 2 ^ (53 - d))) by lia.
    fold x. rewrite Ex. reflexivity. }
  destruct (54 - d) as [|s|s] eqn:Es; try lia.
  rewrite Hs, div_eucl_1.
  change (new_location 1 0) with loc_Exact.
  replace (d - 54) with (d - 53 - 1) by lia.
  apply round_exact; [assumption | lia].
Qed.

Lemma trunc_of_decimal (sign : bool) (v : Z) :
  0 <= v < 2 ^ 53 ->
  PyFloat.trunc (PyFloat.of_decimal sign v 0) = Some (if sign then - v else v).
Proof.
  intros Hv. unfold PyFloat.of_decimal.
  destruct (v =? 0) eqn:E0.
  - apply Z.eqb_eq in E0. subst. now destruct sign.
  - apply Z.eqb_neq in E0. change (0 <=? 0) with true. cbv iota.
    rewrite Z.pow_0_r, Z.mul_1_r.
    destruct v as [|p|p]; try lia.
    destruct (of_ratio_exact sign p) as (q & e & Hf & He & Hq); [lia|].
    rewrite Hf. cbn [PyFloat.trunc].
    assert (Ha : (if 0 <=? e then Zpos q * 2 ^ e else Zpos q / 2 ^ (- e)) = Zpos p).
    { destruct (0 <=? e) eqn:Ee.
      - apply Z.leb_le in Ee. assert (e = 0) by lia. subst e. simpl in *. lia.
      - rewrite Hq. apply Z.div_mul. apply Z.pow_nonzero; lia. }
    cbv zeta. now rewrite Ha.
Qed.

Lemma digit_cases (c : ascii) :
  PyFloat.isdigit c = true ->
  In c ["0"; "1"; "2"; "3"; "4"; "5"; "6"; "7"; "8"; "9"]%char.
Proof.
  destruct c as [[] [] [] [] [] [] [] []]; intros H; try discriminate H;
    simpl; tauto.
Qed.

Lemma digit_ascii (c : ascii) :
  PyFloat.isdigit c = true ->
  (PyStr.code c <? 127)%N = true
  /\ PyFloat.c_isspace c = false
  /\ PyStr.isspace c = false
  /\ kept c = true
  /\ Ascii.eqb c "_" = false.
Proof.
  intros H. apply digit_cases in H.
  repeat (destruct H as [<-|H]; [vm_compute; repeat split; congruence|]).
  destruct H.
Qed.

Lemma digit_split_sign (c : ascii) (s : string) :
  PyFloat.isdigit c = true -> PyFloat.split_sign (String c s) = (false, String c s).
Proof.
  intros H. apply digit_cases in H.
  repeat (destruct H as [<-|H]; [reflexivity|]). destruct H.
Qed.

Lemma take_digits_all (t : string) : forall acc n,
  all_chars PyFloat.isdigit t = true ->
  PyFloat.take_digits acc n t
  = (decimal_acc acc t, n + Z.of_nat (String.length t), EmptyString).
Proof.
  induction t as [|c t IH]; intros acc n H; simpl in *.
  - now rewrite Z.add_0_r.
  - apply andb_prop in H. destruct H as [Hc Ht]. rewrite Hc, IH by assumption.
    do 2 f_equal. lia.
Qed.

Lemma to_ascii_digits (t : string) :
  all_chars PyFloat.isdigit t = true -> PyFloat.to_ascii t = t.
Proof.
  induction t as [|c t IH]; simpl; [reflexivity|].
  intros H. apply andb_prop in H. destruct H as [Hc Ht].
  destruct (digit_ascii c Hc) as (-> & _). now rewrite IH.
Qed.

Lemma all_chars_impl (p q : ascii -> bool) (t : string) :
  (forall c, p c = true -> q c = true) ->
  all_chars p t = true -> all_chars q t = true.
Proof.
  intros Hpq. induction t as [|c t IH]; simpl; [reflexivity|].
  intros H. apply andb_prop in H. destruct H as [Hc Ht].
  now rewrite (Hpq c Hc), IH.
Qed.

Lemma strip_with_none (p : ascii -> bool) (t : string) :
  all_chars (fun c => negb (p c)) t = true -> PyStr.strip_with p t = t.
Proof.
  intros H. unfold PyStr.strip_with.
  assert (L : PyStr.lstrip p t = t).
  { destruct t as [|c t]; [reflexivity|]. simpl in *.
    apply andb_prop in H. destruct H as [Hc _]. now destruct (p c). }
  rewrite L. clear L. induction t as [|c t IH]; simpl in *; [reflexivity|].
  apply andb_prop in H. destruct H as [Hc Ht]. rewrite IH by assumption.
  destruct t; [now destruct (p c) | reflexivity].
Qed.

Lemma filter_all (p : ascii -> bool) (t : string) :
  all_chars p t = true -> PyStr.filter p t = t.
Proof.
  induction t as [|c t IH]; simpl; [reflexivity|].
  intros H. apply andb_prop in H. destruct H as [Hc Ht]. now rewrite Hc, IH.
Qed.

Lemma contains_digits (t : string) :
  all_chars PyFloat.isdigit t = true -> PyStr.contains "_" t = false.
Proof.
  induction t as [|c t IH]; simpl; [reflexivity|].
  intros H. apply andb_prop in H. destruct H as [Hc Ht].
  destruct (digit_ascii c Hc) as (_ & _ & _ & _ & ->). now apply IH.
Qed.

Lemma digits_no_c_space (t : string) :
  all_chars PyFloat.isdigit t = true ->
  all_chars (fun c => negb (PyFloat.c_isspace c)) t = true.
Proof.
  apply all_chars_impl. intros c Hc. now destruct (digit_ascii c Hc) as (_ & -> & _).
Qed.

Lemma digits_no_space (t : string) :
  all_chars PyFloat.isdigit t = true ->
  all_chars (fun c => negb (PyStr.isspace c)) t = true.
Proof.
  apply all_chars_impl. intros c Hc. now destruct (digit_ascii c Hc) as (_ & _ & -> & _).
Qed.

Lemma digits_kept (t : string) :
  all_chars PyFloat.isdigit t = true -> all_chars kept t = true.
Proof.
  apply all_chars_impl. intros c Hc. now destruct (digit_ascii c Hc) as (_ & _ & _ & -> & _).
Qed.

Lemma of_string_digits (neg : bool) (t : string) :
  t <> EmptyString -> all_chars PyFloat.isdigit t = true ->
  PyFloat.of_string (sign_prefix neg ++ t)
  = Some (PyFloat.of_decimal neg (decimal_value t) 0).
Proof.
  intros Hne Hd.
  assert (Hlen : (0 <? 0 + Z.of_nat (String.length t) + 0) = true)
    by (apply Z.ltb_lt; destruct t; [congruence | simpl String.length; lia]).
  unfold PyFloat.of_string. destruct neg; cbn [sign_prefix append].
  - cbn [PyFloat.to_ascii]. change (PyStr.code "-" <? 127)%N with true. cbv iota.
    rewrite to_ascii_digits by assumption.
    rewrite strip_with_none by (simpl; now apply digits_no_c_space).
    cbn [PyStr.is_empty PyStr.contains]. change (Ascii.eqb "-" "_") with false.
    rewrite contains_digits by assumption. cbn [orb].
    unfold PyFloat.parse_number, PyFloat.parse_decimal.
    cbn [PyFloat.split_sign]. rewrite take_digits_all by assumption.
    cbn [PyFloat.parse_exponent]. rewrite Hlen. reflexivity.
  - rewrite to_ascii_digits by assumption.
    rewrite strip_with_none by (now apply digits_no_c_space).
    rewrite contains_digits by assumption.
    destruct t as [|c t]; [congruence|]. cbn [PyStr.is_empty].
    unfold PyFloat.parse_number, PyFloat.parse_decimal.
    assert (Hc : PyFloat.isdigit c = true) by (simpl in Hd; now apply andb_prop in Hd).
    rewrite digit_split_sign by assumption.
    rewrite take_digits_all by assumption.
    cbn [PyFloat.parse_exponent]. rewrite Hlen. reflexivity.
Qed.

Lemma decimal_acc_nonneg (t : string) : forall acc,
  0 <= acc -> 0 <= decimal_acc acc t.
Proof.
  induction t as [|c t IH]; intros acc H; cbn [decimal_acc]; [assumption|].
  apply IH. pose proof (N2Z.is_nonneg (PyStr.code c - 48)). lia.
Qed.

Lemma to_int_digits (neg : bool) (t : string) :
  t <> EmptyString -> all_chars PyFloat.isdigit t = true ->
  decimal_value t < 2 ^ 53 ->
  PyStr.strip (sign_prefix neg ++ t) = (sign_prefix neg ++ t)%string
  /\ to_int (CStr (sign_prefix neg ++ t))
     = Some (if neg then - decimal_value t else decimal_value t).
Proof.
  intros Hne Hd Hv.
  assert (Hs : PyStr.strip (sign_prefix neg ++ t) = (sign_prefix neg ++ t)%string).
  { unfold PyStr.strip. apply strip_with_none.
    destruct neg; simpl; now apply digits_no_space. }
  split; [exact Hs|].
  rewrite to_int_to_float, to_float_eq. cbn [str]. rewrite Hs.
  unfold delete_separators. rewrite filter_all
    by (destruct neg; simpl; now apply digits_kept).
  rewrite of_string_digits by assumption.
  apply trunc_of_decimal. split; [|assumption].
  apply decimal_acc_nonneg. lia.
Qed.

Lemma int_col_not_monetary (k : key) :
  In k (map Some numeric_int_cols) ->
  key_eqb k (Some "Total Value of Care"%string) = false
  /\ existsb (key_eqb k) (map Some numeric_int_cols) = true.
Proof.
  intros Hin. split; [|now apply in_numeric_int_cols].
  destruct (key_eqb k (Some "Total Value of Care"%string)) eqn:Ek; [|reflexivity].
  apply key_eqb_eq in Ek. subst k. simpl in Hin.
  repeat (destruct Hin as [Hin|Hin]; [discriminate|]). destruct Hin.
Qed.

(** X13. A cell of decimal digits only whose number is below [2^53] coerces
    to exactly that number, although the coercion goes through a float:
    [to_int] gives it, and so does the dispatch rule under every count
    column. Zeros in front do not count, so that such a column does not keep
    them. *)
Theorem X13_digits_coerce_exactly (t : string) :
  t <> EmptyString -> all_chars PyFloat.isdigit t = true ->
  decimal_value t < 2 ^ 53 ->
  to_int (CStr t) = Some (decimal_value t)
  /\ (forall k, In k (map Some numeric_int_cols) ->
                to_number_if_possible k (CStr t) = VInt (decimal_value t))
  /\ decimal_value (String "0" t) = decimal_value t.
Proof.
  intros Hne Hd Hv.
  destruct (to_int_digits false t Hne Hd Hv) as [Hs Hi]. cbn [sign_prefix append] in Hs, Hi.
  split; [exact Hi|]. split; [|reflexivity].
  intros k Hk. destruct (int_col_not_monetary k Hk) as [E1 E2].
  unfold to_number_if_possible. cbn [str]. rewrite Hs.
  destruct t as [|c t]; [congruence|]. cbn [PyStr.is_empty].
  now rewrite E1, E2, Hi.
Qed.

Lemma X13_digits_coerce_exactly_witness :
  to_number_if_possible (Some "ZipCode"%string) (CStr "01234") = VInt 1234.
Proof.
  apply (X13_digits_coerce_exactly "01234");
    [discriminate | reflexivity | reflexivity | simpl; auto].
Defined.

Lemma decimal_acc_uint (d : Decimal.uint) : forall acc : positive,
  decimal_acc (Zpos acc) (NilEmpty.string_of_uint d) = Zpos (Pos.of_uint_acc d acc).
Proof.
  induction d as [|d IH|d IH|d IH|d IH|d IH|d IH|d IH|d IH|d IH|d IH];
    intros acc; cbn [NilEmpty.string_of_uint decimal_acc Pos.of_uint_acc];
    [reflexivity|..]; rewrite <- IH; f_equal; vm_compute (Z.of_N _); lia.
Qed.

Lemma decimal_value_uint (d : Decimal.uint) :
  decimal_acc 0 (NilEmpty.string_of_uint d) = Z.of_N (Pos.of_uint d).
Proof.
  induction d as [|d IH|d IH|d IH|d IH|d IH|d IH|d IH|d IH|d IH|d IH];
    cbn [NilEmpty.string_of_uint decimal_acc Pos.of_uint];
    [reflexivity | exact IH | ..]; apply decimal_acc_uint.
Qed.

Lemma uint_digits (d : Decimal.uint) :
  all_chars PyFloat.isdigit (NilEmpty.string_of_uint d) = true.
Proof. induction d; simpl; auto. Qed.

(** The decimal text of a positive number: digits only, and they write it. *)
Lemma pos_text (p : positive) :
  let t := NilZero.string_of_uint (Pos.to_uint p) in
  t <> EmptyString /\ all_chars PyFloat.isdigit t = true /\ decimal_value t = Zpos p.
Proof.
  unfold NilZero.string_of_uint.
  pose proof (Unsigned.to_uint_nonnil p) as Hnil.
  pose proof (uint_digits (Pos.to_uint p)) as Hd.
  pose proof (decimal_value_uint (Pos.to_uint p)) as Hv.
  rewrite Unsigned.of_to in Hv.
  destruct (Pos.to_uint p) eqn:E; [congruence|..];
    (split; [discriminate | split; [exact Hd | exact Hv]]).
Qed.

(** X14. An integer of absolute value below [2^53] written in decimal, as
    [str] writes it, coerces back to itself. *)
Theorem X14_integer_text_round_trip (n : Z) :
  - 2 ^ 53 < n < 2 ^ 53 -> to_int (CStr (PyStr.of_int n)) = Some n.
Proof.
  intros Hn. unfold PyStr.of_int. destruct n as [|p|p].
  - reflexivity.
  - cbn [Z.to_int NilZero.string_of_int].
    destruct (pos_text p) as (Hne & Hd & Hv).
    destruct (to_int_digits false _ Hne Hd) as [_ Hi]; [rewrite Hv; lia|].
    cbn [sign_prefix append] in Hi. now rewrite Hi, Hv.
  - cbn [Z.to_int NilZero.string_of_int].
    destruct (pos_text p) as (Hne & Hd & Hv).
    destruct (to_int_digits true _ Hne Hd) as [_ Hi]; [rewrite Hv; lia|].
    cbn [sign_prefix append] in Hi. now rewrite Hi, Hv.
Qed.

Lemma X14_integer_text_round_trip_witness :
  to_int (CStr (PyStr.of_int (-9007199254740991))) = Some (-9007199254740991).
Proof.
  apply (X14_integer_text_round_trip (-9007199254740991)). split; reflexivity.
Defined.

(** X15. A whole amount in decimal digits below [2^53] is kept exactly by
    float coercion: the float it gives has that number as its value, and the
    column ["Total Value of Care"] stores this float. *)
Theorem X15_whole_amount_exact (t : string) :
  t <> EmptyString -> all_chars PyFloat.isdigit t = true ->
  decimal_value t < 2 ^ 53 ->
  exists x q,
    to_float (CStr t) = Some x
    /\ to_number_if_possible (Some "Total Value of Care"%string) (CStr t) = VFloat x
    /\ PyFloat.to_Q x = Some q
    /\ (q == inject_Z (decimal_value t))%Q.
Proof.
  intros Hne Hd Hv.
  destruct (to_int_digits false t Hne Hd Hv) as [Hs _]. cbn [sign_prefix append] in Hs.
  assert (Hf : to_float (CStr t) = Some (PyFloat.of_decimal false (decimal_value t) 0)).
  { rewrite to_float_eq. cbn [str]. rewrite Hs.
    unfold delete_separators. rewrite filter_all by now apply digits_kept.
    apply (of_string_digits false t Hne Hd). }
  assert (Hn : to_number_if_possible (Some "Total Value of Care"%string) (CStr t)
               = VFloat (PyFloat.of_decimal false (decimal_value t) 0)).
  { unfold to_number_if_possible. cbn [str]. rewrite Hs.
    destruct t as [|c t]; [congruence|]. cbn [PyStr.is_empty].
    change (key_eqb (Some "Total Value of Care"%string) (Some "Total Value of Care"%string))
      with true. cbv iota. now rewrite Hf. }
  pose proof (decimal_acc_nonneg t 0 (Z.le_refl 0)) as H0. fold (decimal_value t) in H0.
  set (v := decimal_value t) in *.
  unfold PyFloat.of_decimal in *. destruct (v =? 0) eqn:E0.
  - apply Z.eqb_eq in E0. rewrite E0.
    do 2 eexists. split; [exact Hf|]. split; [exact Hn|]. split; reflexivity.
  - apply Z.eqb_neq in E0. change (0 <=? 0) with true in *. cbv iota in *.
    rewrite Z.pow_0_r, Z.mul_1_r in *.
    destruct v as [|p|p]; try lia.
    destruct (of_ratio_exact false p) as (m & e & Hx & He & Hm); [lia|].
    rewrite Hx in *.
    do 2 eexists. split; [exact Hf|]. split; [exact Hn|]. split; [reflexivity|].
    destruct (0 <=? e) eqn:Ee.
    + apply Z.leb_le in Ee. assert (e = 0) by lia. subst e.
      change (- 0) with 0 in Hm. rewrite Z.pow_0_r, Z.mul_1_r in *.
      rewrite Hm. reflexivity.
    + apply Z.leb_gt in Ee. unfold Qeq. cbn [Qnum Qden inject_Z].
      rewrite Z2Pos.id by (apply Z.pow_pos_nonneg; lia). lia.
Qed.

Lemma X15_whole_amount_exact_witness :
  exists x q,
    to_float (CStr "1200") = Some x
    /\ to_number_if_possible (Some "Total Value of Care"%string) (CStr "1200") = VFloat x
    /\ PyFloat.to_Q x = Some q
    /\ (q == inject_Z (decimal_value "1200"))%Q.
Proof.
  apply (X15_whole_amount_exact "1200"); [discriminate | reflexivity | reflexivity].
Defined.

(** *** Blank cells and blank records *)

(** X16. A cell of white space only is like a missing cell: float coercion
    and integer coercion give nothing for it, and the dispatch rule gives
    null under every column. *)
Theorem X16_blank_cell_is_missing (s : string) :
  blank s = true ->
  to_float (CStr s) = None
  /\ to_int (CStr s) = None
  /\ forall k, to_number_if_possible k (CStr s) = VNone.
Proof.
  intros Hb. unfold to_float, to_int, to_number_if_possible. cbn [str].
  rewrite (strip_blank s Hb). auto.
Qed.

Lemma X16_blank_cell_is_missing_witness :
  to_float (CStr "  ") = None.
Proof.
  apply (X16_blank_cell_is_missing "  "). reflexivity.
Defined.

Lemma filter_idem {A : Type} (p : A -> bool) (l : list A) :
  filter p (filter p l) = filter p l.
Proof.
  induction l as [|x l IH]; simpl; [reflexivity|].
  destruct (p x) eqn:E; simpl; [rewrite E, IH; reflexivity | exact IH].
Qed.

(** X17. Records without any cell among the data records do not count: the
    reader passes over them, so a run gives the same lines and the same
    document, with the same row ordinals, as on the table without them. *)
Theorem X17_blank_records_do_not_count
    (fs : directory) (name : string) (header : list string) (data : list (list string)) :
  find_input_file fs = Some name ->
  fs name = Some (header :: data) ->
  main fs
  = main (directory_with name
            (header :: filter (fun r => negb (Csv.is_blank r)) data)).
Proof.
  intros Hf Hr.
  assert (Hc : In name INPUT_CANDIDATES).
  { apply first_existing_Some in Hf. destruct Hf as (pre & post & -> & _).
    apply in_or_app. right. now left. }
  assert (Hf' : forall recs, find_input_file (directory_with name recs) = Some name).
  { intros recs.
    unfold find_input_file, INPUT_CANDIDATES, first_existing, path_exists, directory_with.
    destruct Hc as [<-|[<-|[]]]; reflexivity. }
  unfold main. rewrite Hf, Hf', Hr.
  unfold directory_with. rewrite String.eqb_refl.
  cbn [Csv.fieldnames Csv.rows]. rewrite filter_idem. reflexivity.
Qed.

Lemma X17_blank_records_do_not_count_witness :
  main (directory_with "master clinic mapbox file.csv"
          [["Latitude"; "Longitude"]; []; ["30.27"; "-97.74"]; []])
  = main (directory_with "master clinic mapbox file.csv"
            [["Latitude"; "Longitude"]; ["30.27"; "-97.74"]]).
Proof.
  apply (X17_blank_records_do_not_count
           (directory_with "master clinic mapbox file.csv"
              [["Latitude"; "Longitude"]; []; ["30.27"; "-97.74"]; []])
           "master clinic mapbox file.csv" ["Latitude"; "Longitude"]
           [[]; ["30.27"; "-97.74"]; []]); reflexivity.
Defined.

(** ** Rows, diagnostics and the order of the Features *)

Lemma of_int_positive (i : Z) :
  0 < i ->
  PyStr.of_int i <> EmptyString
  /\ all_chars PyFloat.isdigit (PyStr.of_int i) = true
  /\ decimal_value (PyStr.of_int i) = i.
Proof.
  intros Hi. destruct i as [|p|p]; try lia.
  unfold PyStr.of_int. cbn [Z.to_int NilZero.string_of_int]. apply pos_text.
Qed.

(** C1. Once the setup of a run went through, the row of ordinal [i] (counted
    from 1 among the rows the reader yields) has a Feature in the document
    written, recognised by [properties._row = i], if and only if its latitude
    and its longitude cell both coerce to floats. When one of them does not,
    the loop body leaves the Features as they are, adds exactly one to the
    skip counter and prints one diagnostic line, which is then among the
    lines of the run: the words [SKIPPED row], the ordinal [i] in decimal
    digits, and the coordinate, event and city cells as they were read. The
    count that the summary line reports is the number of such rows. *)
Theorem C1_feature_iff_coordinates
    (fs : directory) (records : list (list string)) (lat_key lon_key : string)
    (n : nat) (r : row) :
  resolves fs records lat_key lon_key ->
  nth_error (Csv.rows records) n = Some r ->
  let i := Z.of_nat n + 1 in
  let lat := to_float (row_get r lat_key) in
  let lon := to_float (row_get r lon_key) in
  exists doc,
    written (main fs) = Some doc
    /\ ((exists f, In f (geojson_features doc) /\ feature_row f = Some (VInt i))
        <-> lat <> None /\ lon <> None)
    /\ (lat = None \/ lon = None ->
        let digits := PyStr.of_int i in
        let line := ("SKIPPED row " ++ digits
                     ++ ": lat=" ++ repr (row_get r lat_key)
                     ++ " lon=" ++ repr (row_get r lon_key)
                     ++ " event=" ++ repr (row_get r "Event #")
                     ++ " city=" ++ repr (row_get r "City"))%string in
        In line (stdout (main fs))
        /\ digits <> EmptyString
        /\ all_chars PyFloat.isdigit digits = true
        /\ decimal_value digits = i
        /\ (forall st,
              let st' := process_row lat_key lon_key st (i, r) in
              features st' = features st
              /\ skipped st' = skipped st + 1
              /\ printed st' = printed st ++ [line])
        /\ (forall f, In f (geojson_features doc) -> feature_row f <> Some (VInt i)))
    /\ skipped (run_loop lat_key lon_key (Csv.rows records))
       = Z.of_nat (List.length
                     (filter (fun r' => negb (has_coordinates lat_key lon_key r'))
                             (Csv.rows records))).
Proof.
  intros Hres Hn i lat lon. subst lat lon. rewrite (main_resolves _ _ _ _ Hres).
  eexists. split; [reflexivity|].
  unfold completed. cbn [geojson_features stdout].
  assert (Hiff : (exists f, In f (features (run_loop lat_key lon_key (Csv.rows records)))
                            /\ feature_row f = Some (VInt i))
                 <-> has_coordinates lat_key lon_key r = true).
  { split.
    - intros (f & Hin & Hrow). apply features_In in Hin.
      destruct Hin as (m & r' & Hm & Hf). apply row_feature_In in Hf.
      destruct Hf as (Hc & Hrow' & _). simpl in Hc, Hrow'.
      rewrite Hrow in Hrow'. inversion Hrow' as [Hi].
      assert (m = n) by (subst i; lia). subst m. congruence.
    - intros Hc. unfold has_coordinates in Hc.
      destruct (to_float (row_get r lat_key)) as [x|] eqn:Ex; [|discriminate].
      destruct (to_float (row_get r lon_key)) as [y|] eqn:Ey; [|discriminate].
      exists (build_feature lat_key lon_key i r x y). split.
      + apply features_In. exists n, r. split; [assumption|].
        unfold row_feature. simpl. rewrite Ex, Ey. now left.
      + apply build_props_row. }
  split; [|split].
  - rewrite <- has_coordinates_true. exact Hiff.
  - intros Hnone. cbv zeta. apply has_coordinates_false in Hnone.
    destruct (of_int_positive i) as (H1 & H2 & H3); [subst i; lia|].
    assert (Hin : In (skip_line lat_key lon_key i r)
                     (printed (run_loop lat_key lon_key (Csv.rows records))
                      ++ ["OK: Wrote " ++ OUTPUT_FILE;
                          "Features: "
                          ++ PyStr.of_int
                               (Z.of_nat
                                  (List.length
                                     (features
                                        (run_loop lat_key lon_key (Csv.rows records)))))
                          ++ "  Skipped (missing lat/lon): "
                          ++ PyStr.of_int
                               (skipped (run_loop lat_key lon_key (Csv.rows records)))]%string))
      by (apply in_or_app; left; apply printed_In; exists n, r; auto).
    split; [exact Hin|].
    repeat split; try assumption.
    + rewrite process_row_features. unfold row_feature. cbn [fst snd].
      unfold has_coordinates in Hnone.
      destruct (to_float (row_get r lat_key)), (to_float (row_get r lon_key));
        try discriminate; now rewrite app_nil_r.
    + rewrite process_row_skipped. cbn [snd]. now rewrite Hnone.
    + rewrite process_row_printed. unfold row_diagnostic. cbn [fst snd].
      rewrite Hnone. reflexivity.
    + intros f Hf Hrow.
      assert (Hc : has_coordinates lat_key lon_key r = true)
        by (apply Hiff; exists f; auto).
      congruence.
  - apply skipped_count.
Qed.

Lemma C1_feature_iff_coordinates_witness :
  In "SKIPPED row 2: lat='' lon='-96.8' event='101' city='Dallas'"%string
     (stdout (main sample_directory))
  /\ exists doc,
       written (main sample_directory) = Some doc
       /\ forall f, In f (geojson_features doc) -> feature_row f <> Some (VInt 2).
Proof.
  destruct (C1_feature_iff_coordinates sample_directory sample_records
              "Latitude" "Longitude" 1
              (Csv.dict_row
                 ["Event #"; "City"; "Latitude"; "Longitude"; "Total Value of Care";
                  "Total Patients"]
                 ["101"; "Dallas"; ""; "-96.8"; "300"; "10"])
              sample_resolves eq_refl)
    as (doc & Hw & _ & Hskip & _).
  destruct (Hskip (or_introl eq_refl)) as (Hin & _ & _ & _ & _ & Hno).
  split; [exact Hin|].
  exists doc. split; [exact Hw | exact Hno].
Defined.

(** ** Coercion, with the trimming spelled out *)

Lemma lstrip_decompose (p : ascii -> bool) (t : string) :
  exists pre, t = (pre ++ PyStr.lstrip p t)%string /\ all_chars p pre = true.
Proof.
  induction t as [|c t IH]; simpl.
  - exists EmptyString. auto.
  - destruct (p c) eqn:E.
    + destruct IH as (pre & Ht & Hp). exists (String c pre). simpl.
      rewrite E, Hp. split; [now rewrite <- Ht | reflexivity].
    + exists EmptyString. auto.
Qed.

Lemma rstrip_decompose (p : ascii -> bool) (u : string) :
  exists post, u = (PyStr.rstrip p u ++ post)%string /\ all_chars p post = true.
Proof.
  induction u as [|c u IH]; simpl.
  - exists EmptyString. auto.
  - destruct IH as (post & Hu & Hp).
    destruct (PyStr.rstrip p u) as [|d r] eqn:Er.
    + simpl in Hu. subst u. destruct (p c) eqn:E.
      * exists (String c post). simpl. now rewrite E, Hp.
      * exists post. auto.
    + exists post. split; [now rewrite Hu at 1 | assumption].
Qed.

Lemma strip_decompose (t : string) :
  exists pre post,
    t = (pre ++ PyStr.strip t ++ post)%string /\ blank pre = true /\ blank post = true.
Proof.
  unfold PyStr.strip, PyStr.strip_with, blank.
  destruct (lstrip_decompose PyStr.isspace t) as (pre & Ht & Hpre).
  destruct (rstrip_decompose PyStr.isspace (PyStr.lstrip PyStr.isspace t))
    as (post & Hu & Hpost).
  exists pre, post. split; [|auto]. now rewrite <- Hu.
Qed.

Lemma lstrip_starts (t : string) : starts_clean (PyStr.lstrip PyStr.isspace t) = true.
Proof.
  induction t as [|c t IH]; simpl; [reflexivity|].
  destruct (PyStr.isspace c) eqn:E; [exact IH|]. simpl. now rewrite E.
Qed.

Lemma rstrip_starts (u : string) :
  starts_clean u = true -> starts_clean (PyStr.rstrip PyStr.isspace u) = true.
Proof.
  destruct u as [|c u]; simpl; [reflexivity|]. intros H.
  destruct (PyStr.rstrip PyStr.isspace u); [|exact H].
  destruct (PyStr.isspace c) eqn:E; [discriminate|]. simpl. now rewrite E.
Qed.

Lemma rstrip_ends (u : string) : ends_clean (PyStr.rstrip PyStr.isspace u) = true.
Proof.
  induction u as [|c u IH]; simpl; [reflexivity|].
  destruct (PyStr.rstrip PyStr.isspace u) as [|d r] eqn:Er.
  - destruct (PyStr.isspace c) eqn:E; simpl; [reflexivity | now rewrite E].
  - exact IH.
Qed.

Lemma strip_clean (t : string) :
  starts_clean (PyStr.strip t) = true /\ ends_clean (PyStr.strip t) = true.
Proof.
  unfold PyStr.strip, PyStr.strip_with. split.
  - apply rstrip_starts, lstrip_starts.
  - apply rstrip_ends.
Qed.

Lemma lstrip_clean (s : string) :
  starts_clean s = true -> PyStr.lstrip PyStr.isspace s = s.
Proof.
  destruct s as [|c s]; simpl; [reflexivity|].
  now destruct (PyStr.isspace c).
Qed.

Lemma rstrip_clean (s : string) :
  ends_clean s = true -> PyStr.rstrip PyStr.isspace s = s.
Proof.
  induction s as [|c s IH]; [reflexivity|].
  destruct s as [|d s].
  - simpl. now destruct (PyStr.isspace c).
  - intros H. change (ends_clean (String c (String d s))) with (ends_clean (String d s)) in H.
    specialize (IH H).
    change (PyStr.rstrip PyStr.isspace (String c (String d s)))
      with (match PyStr.rstrip PyStr.isspace (String d s) with
            | EmptyString => if PyStr.isspace c then EmptyString else String c EmptyString
            | String _ _ as r0 => String c r0
            end).
    now rewrite IH.
Qed.

Lemma strip_idem_clean (s : string) :
  starts_clean s = true -> ends_clean s = true ->
  PyStr.strip_with PyStr.isspace s = s.
Proof.
  intros H1 H2. unfold PyStr.strip_with. rewrite (lstrip_clean s H1). now apply rstrip_clean.
Qed.




(** C5. The dispatch rule on a column name and a cell. A missing cell or a
    cell of white space only gives null. Otherwise the text of the cell is
    trimmed: the column ["Total Value of Care"] gives the float coercion of
    the trimmed text, a column of the fixed set of count columns gives its
    integer coercion, and each falls back to the trimmed text when the
    coercion gives nothing; any other column gives the trimmed text. A text
    that the rule gives is the text of the cell without the white space at
    its two ends, and never the empty string. In a row of the reader, every
    entry that is not a coordinate column has the result of the rule as its
    property. *)
Theorem C5_dispatch_rule :
  (forall (k : key) (val : cell),
     let s := PyStr.strip (str val) in
     let res := to_number_if_possible k val in
     (val = CNone \/ s = EmptyString -> res = VNone)
     /\ (val <> CNone -> s <> EmptyString ->
         (k = Some "Total Value of Care"%string ->
            res = match to_float (CStr s) with Some f => VFloat f | None => VStr s end)
         /\ (In k (map Some numeric_int_cols) ->
              res = match to_int (CStr s) with Some n => VInt n | None => VStr s end)
         /\ (k <> Some "Total Value of Care"%string ->
              ~ In k (map Some numeric_int_cols) ->
              res = VStr s))
     /\ res <> VStr EmptyString)
  /\ (forall (lat_key lon_key : string) (records : list (list string))
             (r : row) (k : key) (val : cell),
        In r (Csv.rows records) -> In (k, val) r ->
        is_coordinate lat_key lon_key k = false ->
        PyDict.get key_eqb k (column_props lat_key lon_key r)
        = Some (to_number_if_possible k val))
  /\ (forall (k : key) (s : string),
        blank s = true -> to_number_if_possible k (CStr s) = VNone)
  /\ (forall (k : key) (pre s post : string),
        blank pre = true -> blank post = true ->
        to_number_if_possible k (CStr (pre ++ s ++ post)%string)
        = to_number_if_possible k (CStr s))
  /\ (forall (k : key) (val : cell) (s : string),
        to_number_if_possible k val = VStr s ->
        s <> EmptyString
        /\ starts_clean s = true /\ ends_clean s = true
        /\ exists pre post,
             str val = (pre ++ s ++ post)%string
             /\ blank pre = true /\ blank post = true)
  /\ (forall (k : key) (s : string),
        s <> EmptyString -> starts_clean s = true -> ends_clean s = true ->
        k <> Some "Total Value of Care"%string ->
        ~ In k (map Some numeric_int_cols) ->
        to_number_if_possible k (CStr s) = VStr s)
  /\ to_number_if_possible (Some "City"%string) (CStr "  Austin ") = VStr "Austin"
  /\ to_number_if_possible (Some "City"%string) (CStr "   ") = VNone
  /\ to_number_if_possible (Some "City"%string) (CStr "123") = VStr "123"
  /\ to_number_if_possible (Some "Total Patients"%string) (CStr " 12O ") = VStr "12O"
  /\ to_number_if_possible (Some "Total Patients"%string) (CStr " 120 ") = VInt 120
  /\ to_number_if_possible (Some "Total Value of Care"%string) (CStr " n/a") = VStr "n/a"
  /\ to_number_if_possible (Some "Total Value of Care"%string) (CStr "") = VNone.
Proof.
  split.
  { intros k val s res. subst res. unfold to_number_if_possible. fold s.
    destruct (PyStr.is_empty s) eqn:Es.
    - apply is_empty_true in Es. split; [|split].
      + now destruct val.
      + congruence.
      + destruct val; discriminate.
    - assert (Hs : s <> EmptyString) by (rewrite <- is_empty_true; congruence).
      split; [|split].
      + intros [->|H]; [reflexivity | contradiction].
      + intros Hv _.
        assert (E : forall (t : value), match val with CNone => VNone | _ => t end = t)
          by (now destruct val).
        rewrite E. clear E. split; [|split].
        * intros ->. reflexivity.
        * intros Hin. destruct (int_col_not_monetary k Hin) as [E1 E2].
          now rewrite E1, E2.
        * intros Hk Hin. rewrite (key_eqb_neq _ _ Hk).
          destruct (existsb (key_eqb k) (map Some numeric_int_cols)) eqn:Ei;
            [apply in_numeric_int_cols in Ei; contradiction | reflexivity].
      + destruct val; [discriminate| |];
          repeat match goal with
                 | |- context [if ?b then _ else _] => destruct b
                 | |- context [match ?o with Some _ => _ | None => _ end] => destruct o
                 end; congruence. }
  split.
  { intros lat_key lon_key records r k val Hr Hin Hc.
    apply column_props_get; [eapply rows_NoDup; eassumption | assumption | assumption]. }
  split.
  { intros k s Hb. unfold to_number_if_possible. cbn [str].
    now rewrite (strip_blank s Hb). }
  split.
  { intros k pre s post Hpre Hpost.
    assert (E : PyStr.strip (pre ++ s ++ post)%string = PyStr.strip s)
      by (now apply strip_with_pad).
    unfold to_number_if_possible, str. now rewrite E. }
  split.
  { intros k val s H.
    assert (Hs : s = PyStr.strip (str val) /\ s <> EmptyString).
    { unfold to_number_if_possible in H.
      destruct val as [|t|l]; [discriminate| |];
        match type of H with
        | context [PyStr.is_empty ?u] =>
            destruct (PyStr.is_empty u) eqn:Eu; [discriminate|];
            assert (Hne : u <> EmptyString) by (rewrite <- is_empty_true; congruence)
        end;
        repeat match type of H with
               | context [if ?b then _ else _] => destruct b
               | context [match ?o with Some _ => _ | None => _ end] => destruct o
               end;
        inversion H; subst; auto. }
    destruct Hs as [-> Hne]. split; [exact Hne|].
    destruct (strip_clean (str val)) as [H1 H2]. split; [exact H1|]. split; [exact H2|].
    apply strip_decompose. }
  split.
  { intros k s Hne H1 H2 Hk Hin.
    assert (Hs : PyStr.strip s = s).
    { unfold PyStr.strip. apply strip_idem_clean; assumption. }
    unfold to_number_if_possible. cbn [str]. rewrite Hs.
    destruct s as [|c s]; [congruence|]. cbn [PyStr.is_empty].
    rewrite (key_eqb_neq _ _ Hk).
    destruct (existsb (key_eqb k) (map Some numeric_int_cols)) eqn:Ei;
      [apply in_numeric_int_cols in Ei; contradiction | reflexivity]. }
  repeat split; vm_compute; reflexivity.
Qed.

(** ** The order of the Features *)

Lemma filter_map_comm {A B : Type} (f : A -> B) (p : B -> bool) (l : list A) :
  filter p (map f l) = map f (filter (fun x => p (f x)) l).
Proof.
  induction l as [|x l IH]; simpl; [reflexivity|].
  destruct (p (f x)); simpl; now rewrite IH.
Qed.

Lemma ordinals_by_position lat_key lon_key (rows : list row) : forall a,
  map fst (filter (fun ir => has_coordinates lat_key lon_key (snd ir)) (enumerate a rows))
  = map (fun n => a + Z.of_nat n)
        (filter (row_has_coordinates lat_key lon_key rows) (seq 0 (List.length rows))).
Proof.
  induction rows as [|r rows IH]; intros a; [reflexivity|].
  cbn [enumerate List.length seq]. rewrite <- seq_shift. cbn [filter snd].
  assert (H0 : row_has_coordinates lat_key lon_key (r :: rows) 0%nat
               = has_coordinates lat_key lon_key r) by reflexivity.
  rewrite H0, filter_map_comm.
  assert (E : filter (fun x => row_has_coordinates lat_key lon_key (r :: rows) (S x))
                     (seq 0 (List.length rows))
              = filter (row_has_coordinates lat_key lon_key rows)
                       (seq 0 (List.length rows)))
    by (apply List.filter_ext; intros n; reflexivity).
  rewrite E.
  destruct (has_coordinates lat_key lon_key r); cbn [map fst];
    rewrite IH, map_map; [f_equal; [lia|]|]; apply map_ext; intros n; lia.
Qed.

Lemma sorted_nth (l : list Z) :
  StronglySorted Z.lt l ->
  forall a b x y, (a < b)%nat -> nth_error l a = Some x -> nth_error l b = Some y -> x < y.
Proof.
  induction 1 as [|z l Hs IH Hall]; intros a b x y Hab Ha Hb.
  - now destruct a.
  - destruct b as [|b]; [lia|]. destruct a as [|a]; simpl in *.
    + inversion Ha. subst z. rewrite Forall_forall in Hall. apply Hall.
      eapply nth_error_In. eassumption.
    + apply (IH a b); [lia | assumption | assumption].
Qed.

(** C8. A document written is one record of type ["FeatureCollection"]. Its
    Features are those of the rows the reader yields, in the order of the
    rows: the values of [properties._row] along the sequence are the
    ordinals, counted from 1, of the rows that have both coordinates, in
    increasing order, so that of two Features the one that stands first
    comes from the row that stands first. *)
Theorem C8_feature_collection_in_row_order (fs : directory) (doc : geojson) :
  written (main fs) = Some doc ->
  geojson_type doc = "FeatureCollection"%string
  /\ (exists records lat_key lon_key,
        resolves fs records lat_key lon_key
        /\ geojson_features doc
           = flat_map (row_feature lat_key lon_key) (enumerate 1 (Csv.rows records))
        /\ map feature_row (geojson_features doc)
           = map (fun n => Some (VInt (Z.of_nat n + 1)))
                 (filter (row_has_coordinates lat_key lon_key (Csv.rows records))
                         (seq 0 (List.length (Csv.rows records)))))
  /\ (exists ordinals,
        map feature_row (geojson_features doc) = map (fun i => Some (VInt i)) ordinals
        /\ StronglySorted Z.lt ordinals)
  /\ (forall a b fa fb,
        (a < b)%nat ->
        nth_error (geojson_features doc) a = Some fa ->
        nth_error (geojson_features doc) b = Some fb ->
        exists i j, feature_row fa = Some (VInt i) /\ feature_row fb = Some (VInt j)
                    /\ 1 <= i < j).
Proof.
  intros Hw. destruct (main_cases fs) as [(records & lat_key & lon_key & H) | [_ H2]];
    [|congruence].
  rewrite (main_resolves _ _ _ _ H) in Hw. unfold completed in Hw. simpl in Hw.
  inversion Hw. subst doc. clear Hw. cbn [geojson_type geojson_features].
  unfold run_loop. rewrite loop_features. simpl.
  set (rows := Csv.rows records).
  set (ordinals := map fst (filter (fun ir => has_coordinates lat_key lon_key (snd ir))
                                   (enumerate 1 rows))).
  assert (Hord : map feature_row (flat_map (row_feature lat_key lon_key) (enumerate 1 rows))
                 = map (fun i => Some (VInt i)) ordinals) by apply features_ordinals.
  assert (Hsorted : StronglySorted Z.lt ordinals)
    by (apply sorted_map_filter, enumerate_sorted).
  assert (Hpos : ordinals
                 = map (fun n => 1 + Z.of_nat n)
                       (filter (row_has_coordinates lat_key lon_key rows)
                               (seq 0 (List.length rows))))
    by apply ordinals_by_position.
  split; [reflexivity|]. split; [|split].
  - exists records, lat_key, lon_key. split; [assumption|]. split; [reflexivity|].
    fold rows. rewrite Hord, Hpos, map_map. apply map_ext. intros n. do 2 f_equal. lia.
  - exists ordinals. auto.
  - intros a b fa fb Hab Ha Hb.
    assert (Ha' := map_nth_error feature_row _ _ Ha).
    assert (Hb' := map_nth_error feature_row _ _ Hb).
    rewrite Hord in Ha', Hb'.
    destruct (nth_error ordinals a) as [i|] eqn:Ei;
      [|rewrite (proj2 (nth_error_None _ _)) in Ha'; [discriminate|];
        rewrite length_map; now apply nth_error_None].
    destruct (nth_error ordinals b) as [j|] eqn:Ej;
      [|rewrite (proj2 (nth_error_None _ _)) in Hb'; [discriminate|];
        rewrite length_map; now apply nth_error_None].
    rewrite (map_nth_error _ _ _ Ei) in Ha'. rewrite (map_nth_error _ _ _ Ej) in Hb'.
    exists i, j. split; [congruence|]. split; [congruence|].
    split; [|exact (sorted_nth ordinals Hsorted a b i j Hab Ei Ej)].
    apply nth_error_In in Ei. rewrite Hpos in Ei. apply in_map_iff in Ei.
    destruct Ei as (n & <- & _). lia.
Qed.

Lemma C8_feature_collection_in_row_order_witness :
  exists doc,
    written (main ordered_directory) = Some doc
    /\ geojson_type doc = "FeatureCollection"%string
    /\ map feature_row (geojson_features doc) = [Some (VInt 1); Some (VInt 3)]
    /\ map (fun f => PyDict.get key_eqb (Some "City"%string) (properties f))
           (geojson_features doc)
       = [Some (VStr "Austin"); Some (VStr "Houston")].
Proof.
  assert (Hw : exists doc, written (main ordered_directory) = Some doc)
    by (eexists; vm_compute; reflexivity).
  destruct Hw as [doc Hw]. exists doc. split; [exact Hw|].
  destruct (C8_feature_collection_in_row_order ordered_directory doc Hw)
    as (Ht & (records & lat_key & lon_key & Hres & Hfeat & Hrows) & _).
  split; [exact Ht|].
  assert (Hdoc := Hw). vm_compute in Hdoc. inversion Hdoc. subst doc.
  split; vm_compute; reflexivity.
Defined.

(** ** Two runs on the same input *)

Lemma main_reads_candidates (fs1 fs2 : directory) :
  (forall n, In n INPUT_CANDIDATES -> fs1 n = fs2 n) -> main fs1 = main fs2.
Proof.
  intros H.
  assert (H1 := H "master clinic mapbox file.csv"%string (or_introl eq_refl)).
  assert (H2 := H "master clinic mapbox file.cvs"%string (or_intror (or_introl eq_refl))).
  unfold main, find_input_file, INPUT_CANDIDATES, first_existing, path_exists.
  rewrite H1, H2. clear H.
  destruct (fs2 "master clinic mapbox file.csv"%string) eqn:E1;
    [rewrite H1, E1; reflexivity|].
  destruct (fs2 "master clinic mapbox file.cvs"%string) eqn:E2;
    [rewrite H2, E2; reflexivity | reflexivity].
Qed.

Lemma output_is_no_candidate (n : string) : In n INPUT_CANDIDATES -> n <> OUTPUT_FILE.
Proof. intros [<-|[<-|[]]]; discriminate. Qed.

Lemma existsb_permutation {A : Type} (p : A -> bool) (l l' : list A) :
  Permutation l l' -> existsb p l = existsb p l'.
Proof.
  induction 1 as [|x l l' _ IH|x y l|l l' l'' _ IH1 _ IH2]; simpl.
  - reflexivity.
  - now rewrite IH.
  - destruct (p x), (p y); reflexivity.
  - congruence.
Qed.

Lemma feature_keys_by_row lat_key lon_key (rows : list row) : forall a,
  (forall r, In r rows -> NoDup (PyDict.keys r)) ->
  map (fun f => PyDict.keys (properties f))
      (flat_map (row_feature lat_key lon_key) (enumerate a rows))
  = map (property_keys lat_key lon_key) (filter (has_coordinates lat_key lon_key) rows).
Proof.
  induction rows as [|r rows IH]; intros a Hnd; [reflexivity|].
  cbn [enumerate flat_map filter]. rewrite map_app, IH by (intros; apply Hnd; now right).
  unfold row_feature at 1, has_coordinates at 2. cbn [fst snd].
  destruct (to_float (row_get r lat_key)) as [lat|];
    destruct (to_float (row_get r lon_key)) as [lon|]; try reflexivity.
  cbn [map app properties build_feature]. f_equal.
  apply build_props_keys, Hnd. now left.
Qed.

Lemma append_assoc (s t u : string) : ((s ++ t) ++ u = s ++ t ++ u)%string.
Proof. induction s as [|c s IH]; simpl; [reflexivity | now rewrite IH]. Qed.

Lemma object_text_pair (a b c d : string) :
  PyJson.object_text [(a, b); (c, d)]
  = ("{" ++ a ++ ": " ++ b ++ ", " ++ c ++ ": " ++ d ++ "}")%string.
Proof.
  unfold PyJson.object_text. cbn [map PyStr.join fst snd].
  now rewrite !append_assoc.
Qed.

(** The text of some floats, as [json] writes them. *)
Example float_text_samples :
  map (fun s => option_map PyJson.float_text (PyFloat.of_string s))
      ["0.1"; "1e22"; "1e16"; "123456789012345680"; "9999999999999998"; "5e-324";
       "1.7976931348623157e308"; "0.0001"; "0.00001"; "30.27"; "-97.74"; "1200.50";
       "2.5e-5"; "1e100"; "inf"; "-inf"; "nan"; "-0"; "100"]%string
  = map Some
      ["0.1"; "1e+22"; "1e+16"; "1.2345678901234568e+17"; "9999999999999998.0"; "5e-324";
       "1.7976931348623157e+308"; "0.0001"; "1e-05"; "30.27"; "-97.74"; "1200.5";
       "2.5e-05"; "1e+100"; "Infinity"; "-Infinity"; "NaN"; "-0.0"; "100.0"]%string.
Proof. vm_compute. reflexivity. Qed.

(** The text of a float that stands in a document reads back as the float. *)
Example float_text_reads_back :
  forallb (fun s => match PyFloat.of_string s with
                    | Some x =>
                        match PyFloat.of_string (PyJson.float_text x) with
                        | Some y => PyJson.float_eqb x y
                        | None => false
                        end
                    | None => false
                    end)
          ["0.1"; "30.27"; "-97.74"; "1200.50"; "5e-324"; "1e22"; "-96.8"; "29.76"]%string
  = true.
Proof. vm_compute. reflexivity. Qed.

(** C9. The document written depends on nothing but the candidate input
    files: two working directories that hold the same records under the two
    candidate names give the same bytes in the output file, the same lines
    and the same exit status; so does a second run in the directory the first
    one left, whatever the output file holds by then. The bytes are the UTF-8
    encoding of the text [json.dump] writes: the Features in the order of the
    rows that have coordinates and, in each Feature, the keys in the order of
    the columns of its own row, the synthetic keys last. Whether a column is
    coerced to an integer does not depend on the order in which the set of
    integer columns is enumerated. The files written for the sample table
    and for the accented table are given byte by byte. *)
Theorem C9_deterministic (fs1 fs2 : directory) :
  (forall n, In n INPUT_CANDIDATES -> fs1 n = fs2 n) ->
  output_bytes (main fs1) = output_bytes (main fs2)
  /\ main fs1 = main fs2
  /\ (forall fs3,
        left_by_run fs1 fs3 ->
        output_bytes (main fs3) = output_bytes (main fs1)
        /\ stdout (main fs3) = stdout (main fs1)
        /\ exit_status (main fs3) = exit_status (main fs1))
  /\ (forall records lat_key lon_key doc,
        resolves fs1 records lat_key lon_key ->
        written (main fs2) = Some doc ->
        output_bytes (main fs2)
        = Some (PyJson.utf8
                  (with_quotes "{'type': 'FeatureCollection', 'features': ["
                   ++ PyStr.join ", " (map PyJson.feature_text (geojson_features doc))
                   ++ "]}"))
        /\ map (fun f => PyDict.keys (properties f)) (geojson_features doc)
           = map (property_keys lat_key lon_key)
                 (filter (has_coordinates lat_key lon_key) (Csv.rows records))
        /\ (forall f n r,
              In f (geojson_features doc) ->
              feature_row f = Some (VInt (Z.of_nat n + 1)) ->
              nth_error (Csv.rows records) n = Some r ->
              PyDict.keys (properties f) = property_keys lat_key lon_key r))
  /\ (forall cols k,
        Permutation cols numeric_int_cols ->
        existsb (key_eqb k) (map Some cols)
        = existsb (key_eqb k) (map Some numeric_int_cols))
  /\ output_bytes (main sample_directory) = Some (list_byte_of_string sample_output)
  /\ output_bytes (main accented_directory) = Some (list_byte_of_string accented_output).
Proof.
  intros H.
  assert (Heq : main fs1 = main fs2) by now apply main_reads_candidates.
  split; [now rewrite Heq|]. split; [exact Heq|]. split.
  { intros fs3 H3.
    assert (E : main fs3 = main fs1).
    { apply main_reads_candidates. intros n Hn. apply H3. now apply output_is_no_candidate. }
    now rewrite E. }
  split.
  { intros records lat_key lon_key doc Hres Hw.
    rewrite <- Heq in *. rewrite (main_resolves _ _ _ _ Hres) in *.
    unfold completed in Hw. cbn [written] in Hw. inversion Hw. subst doc. clear Hw.
    cbn [geojson_features]. split; [|split].
    - unfold output_bytes, completed. cbn [written option_map]. do 2 f_equal.
      unfold PyJson.document_text. cbn [geojson_type geojson_features].
      rewrite object_text_pair. unfold PyJson.array_text.
      generalize (PyStr.join ", "
                    (map PyJson.feature_text
                         (features (run_loop lat_key lon_key (Csv.rows records))))).
      intros J.
      replace (("[" ++ J ++ "]") ++ "}")%string with ("[" ++ J ++ "]}")%string
        by (cbn [String.append]; now rewrite append_assoc).
      vm_compute with_quotes. vm_compute PyJson.string_text. reflexivity.
    - unfold run_loop. rewrite loop_features. cbn [features initial_state app].
      apply feature_keys_by_row. intros r Hr. eapply rows_NoDup. eassumption.
    - intros f n r Hin Hrow Hn. apply features_In in Hin.
      destruct Hin as (n' & r' & Hn' & Hf). apply row_feature_In in Hf.
      cbn [fst snd] in Hf. destruct Hf as (_ & Hrow' & lat & lon & _ & _ & ->).
      rewrite Hrow in Hrow'. inversion Hrow' as [E].
      apply (f_equal (fun z => z - 1)) in E. rewrite !Z.add_simpl_r in E.
      apply Nat2Z.inj in E. subst n'. rewrite Hn in Hn'. inversion Hn'. subst r'.
      cbn [properties build_feature]. apply build_props_keys.
      eapply rows_NoDup, nth_error_In. eassumption. }
  split.
  { intros cols k Hp. apply existsb_permutation. now apply Permutation_map. }
  split; vm_compute; reflexivity.
Qed.

Lemma C9_deterministic_witness :
  main sample_directory = main crowded_directory
  /\ output_bytes (main crowded_directory) = Some (list_byte_of_string sample_output).
Proof.
  destruct (C9_deterministic sample_directory crowded_directory)
    as (Hb & Hm & _ & _ & _ & Hs & _).
  - intros n [<-|[<-|[]]]; reflexivity.
  - split; [exact Hm | rewrite <- Hb; exact Hs].
Defined.
